(** * Haircut availability search: scoring, ranking and query interpretation

    A shallow embedding of [app/main.py]: the domain records, the mock
    provider connectors, the temporal phrase parser, the scoring function,
    slot normalisation, the conversational query interpreter and the
    aggregation pipeline, followed by the properties established for them.

    Modelling conventions.
    - A Python [str] is a [string] of code points U+0000 to U+00FF; a
      character is read as the code point with the same number.  The case
      and digit tables of the code points above U+00FF are outside the
      model.
    - A Python [float] is an exact rational ([Q]); [round(x, 4)] rounds half
      to even and returns the reduced fraction.  NaN and the infinities are
      outside the model.
    - A naive [datetime] is the number of microseconds since the epoch ([Z]):
      the clock readings and the start times of the slots, which the
      connectors build from them.  What [dateutil] returns is a [moment],
      naive or aware; comparing a naive datetime with an aware one raises
      [TypeError].
    - The system clock and the [random] module are oracles indexed by the
      number of calls made so far; the effectful functions thread that
      count explicitly.
    - [rapidfuzz] and [dateutil] are external: they are fields of [World]. *)

From Stdlib Require Import ZArith NArith QArith Qround Qabs List Bool Lia.
From Stdlib Require Import Ascii String DecimalString.
From Stdlib Require Import Sorting.Sorted Sorting.Permutation Lqa.
Import ListNotations.

Open Scope string_scope.
Open Scope Z_scope.

(* ------------------------------------------------------------------ *)
(** ** Python string methods *)

Module PyStr.

Definition code (c : ascii) : N := N_of_ascii c.

(** [str.lower] on one code point below U+0100. *)
Definition lower_char (c : ascii) : ascii :=
  let n := code c in
  if (((65 <=? n) && (n <=? 90)) ||
      ((192 <=? n) && (n <=? 222) && negb (n =? 215)))%N
  then ascii_of_N (n + 32) else c.

Fixpoint lower (s : string) : string :=
  match s with
  | EmptyString => EmptyString
  | String c s' => String (lower_char c) (lower s')
  end.

(** The characters [str.split()] and [str.strip()] treat as whitespace. *)
Definition isspace_char (c : ascii) : bool :=
  let n := code c in
  (((9 <=? n) && (n <=? 13)) || ((28 <=? n) && (n <=? 32)) ||
   (n =? 133) || (n =? 160))%N.

Definition isdecimal_char (c : ascii) : bool :=
  let n := code c in ((48 <=? n) && (n <=? 57))%N.

(** [str.isdigit] also accepts the superscript digits U+00B2, U+00B3, U+00B9. *)
Definition isdigit_char (c : ascii) : bool :=
  let n := code c in
  (isdecimal_char c || (n =? 178) || (n =? 179) || (n =? 185))%N.

Fixpoint forallb_str (p : ascii -> bool) (s : string) : bool :=
  match s with
  | EmptyString => true
  | String c s' => p c && forallb_str p s'
  end.

Definition isdigit (s : string) : bool :=
  match s with
  | EmptyString => false
  | _ => forallb_str isdigit_char s
  end.

Fixpoint mem_char (c : ascii) (chars : string) : bool :=
  match chars with
  | EmptyString => false
  | String d chars' => Ascii.eqb c d || mem_char c chars'
  end.

(** [s.replace(c, new)] for a one-character pattern [c]. *)
Fixpoint replace_char (c : ascii) (new : string) (s : string) : string :=
  match s with
  | EmptyString => EmptyString
  | String d s' =>
      if Ascii.eqb d c then new ++ replace_char c new s'
      else String d (replace_char c new s')
  end.

Fixpoint drop (n : nat) (s : string) : string :=
  match n, s with
  | O, _ => s
  | S _, EmptyString => EmptyString
  | S n', String _ s' => drop n' s'
  end.

(** [sub in s]. *)
Fixpoint contains (sub s : string) : bool :=
  prefix sub s ||
  match s with
  | EmptyString => false
  | String _ s' => contains sub s'
  end.

(** [s.split()]: maximal runs of non-whitespace characters.  [cur] is the
    token being read, if any. *)
Fixpoint split_from (cur : option string) (s : string) : list string :=
  match s with
  | EmptyString => match cur with Some t => [t] | None => [] end
  | String c s' =>
      if isspace_char c then
        match cur with
        | Some t => t :: split_from None s'
        | None => split_from None s'
        end
      else
        split_from
          (Some (match cur with Some t => t | None => EmptyString end
                 ++ String c EmptyString)) s'
  end.

Definition split (s : string) : list string := split_from None s.

(** [s.split(sep, 1)] for a non-empty [sep]: cut at the first occurrence. *)
Fixpoint split1 (sep s : string) : list string :=
  if prefix sep s then [EmptyString; drop (String.length sep) s]
  else
    match s with
    | EmptyString => [EmptyString]
    | String c s' =>
        match split1 sep s' with
        | a :: rest => String c a :: rest
        | [] => []
        end
    end.

Fixpoint lstrip_by (p : ascii -> bool) (s : string) : string :=
  match s with
  | EmptyString => EmptyString
  | String c s' => if p c then lstrip_by p s' else s
  end.

Fixpoint rstrip_by (p : ascii -> bool) (s : string) : string :=
  match s with
  | EmptyString => EmptyString
  | String c s' =>
      match rstrip_by p s' with
      | EmptyString => if p c then EmptyString else String c EmptyString
      | r => String c r
      end
  end.

(** [s.strip(chars)] removes the characters of [chars] from both ends. *)
Definition strip (chars s : string) : string :=
  rstrip_by (fun c => mem_char c chars) (lstrip_by (fun c => mem_char c chars) s).

(** [s.strip()] removes whitespace from both ends. *)
Definition strip_ws (s : string) : string :=
  rstrip_by isspace_char (lstrip_by isspace_char s).

(** [str(n)] for an integer. *)
Definition of_int (n : Z) : string := NilZero.string_of_int (Z.to_int n).

(** The value of a string of decimal digits, most significant first. *)
Fixpoint decimal_value (acc : Z) (s : string) : Z :=
  match s with
  | EmptyString => acc
  | String c s' => decimal_value (10 * acc + (Z.of_N (code c) - 48)) s'
  end.

End PyStr.

(* ------------------------------------------------------------------ *)
(** ** Exceptions, the outside world and the effect monad *)

(** Exceptions derived from Python's [Exception]. *)
Inductive exn : Type :=
| IndexError
| ValueError
| TypeError
| OtherError (name : string).

Inductive result (A : Type) : Type :=
| Ok (a : A)
| Raise (e : exn).
Arguments Ok {A} a.
Arguments Raise {A} e.

Definition rbind {A B} (m : result A) (k : A -> result B) : result B :=
  match m with
  | Ok a => k a
  | Raise e => Raise e
  end.

Notation "'let!' x ':=' m 'in' k" := (rbind m (fun x => k))
  (at level 10, x name, m at level 100, k at level 200).

(** [l[i]] for a non-negative index. *)
Definition index {A} (l : list A) (i : nat) : result A :=
  match nth_error l i with
  | Some a => Ok a
  | None => Raise IndexError
  end.

(** The default of [sys.int_max_str_digits]. *)
Definition int_max_str_digits : nat := 4300.

(** [int(s)] on a string that passed [isdigit]: a superscript digit is not a
    decimal digit, and a string of more than [int_max_str_digits] digits is
    refused. *)
Definition int_of_str (s : string) : result Z :=
  match s with
  | EmptyString => Raise ValueError
  | _ => if PyStr.forallb_str PyStr.isdecimal_char s
            && (String.length s <=? int_max_str_digits)%nat
         then Ok (PyStr.decimal_value 0 s) else Raise ValueError
  end.

(** Microseconds since the epoch. *)
Definition datetime : Type := Z.

(** A datetime as a parser may return it: naive, or aware with its offset
    from UTC in microseconds. *)
Inductive moment : Type :=
| Naive (t : datetime)
| Aware (t : datetime) (utcoffset : Z).

(** [a < b] for a naive [a]: [can't compare offset-naive and offset-aware
    datetimes] when [b] is aware. *)
Definition naive_lt (a : datetime) (b : moment) : result bool :=
  match b with
  | Naive t => Ok (a <? t)
  | Aware _ _ => Raise TypeError
  end.

Definition timedelta_hours (h : Z) : Z := h * 3600000000.
Definition timedelta_days (d : Z) : Z := d * 86400000000.

(** [t.replace(minute=0, second=0, microsecond=0)]. *)
Definition replace_to_hour (t : datetime) : datetime :=
  t - t mod timedelta_hours 1.

(** [t.replace(hour=h, minute=0, second=0, microsecond=0)]. *)
Definition replace_hour (h : Z) (t : datetime) : datetime :=
  t - t mod timedelta_days 1 + timedelta_hours h.

Record World : Type := {
  (** the reading returned by the n-th call of [datetime.utcnow()] *)
  utcnow_at : nat -> datetime;
  (** the n-th draw of the [random] module *)
  random_at : nat -> N;
  (** [rapidfuzz.fuzz.partial_ratio] *)
  partial_ratio : string -> string -> Q;
  (** [dateutil.parser.parse(text, fuzzy=True, default=d)] *)
  dtparse_parse : string -> datetime -> result moment
}.

(** How many times the clock and the random module have been called. *)
Record Calls : Type := { clock_calls : nat; random_calls : nat }.

Definition Py (A : Type) : Type := Calls -> result A * Calls.

Definition ret {A} (a : A) : Py A := fun st => (Ok a, st).

Definition bind {A B} (m : Py A) (k : A -> Py B) : Py B :=
  fun st =>
    match m st with
    | (Ok a, st') => k a st'
    | (Raise e, st') => (Raise e, st')
    end.

Notation "x <- m ;; k" := (bind m (fun x => k))
  (at level 100, m at next level, right associativity).

Definition lift {A} (r : result A) : Py A := fun st => (r, st).

(** [try: body except Exception: handler]. *)
Definition try_except {A} (body : Py A) (handler : Py A) : Py A :=
  fun st =>
    match body st with
    | (Ok a, st') => (Ok a, st')
    | (Raise _, st') => handler st'
    end.

Definition utcnow (W : World) : Py datetime :=
  fun st =>
    (Ok (utcnow_at W (clock_calls st)),
     {| clock_calls := S (clock_calls st); random_calls := random_calls st |}).

Definition draw (W : World) : Py N :=
  fun st =>
    (Ok (random_at W (random_calls st)),
     {| clock_calls := clock_calls st; random_calls := S (random_calls st) |}).

(** [random.randint(a, b)]. *)
Definition randint (W : World) (a b : Z) : Py Z :=
  r <- draw W ;; ret (a + Z.of_N r mod (b - a + 1)).

(** [random.choice(l)]. *)
Definition choice {A} (W : World) (l : list A) : Py A :=
  match l with
  | [] => lift (Raise IndexError)
  | d :: _ => r <- draw W ;; ret (nth (N.to_nat r mod List.length l) l d)
  end.

(** [random.uniform(a, b)]: [a + (b - a) * random()], [random()] in [0, 1). *)
Definition uniform (W : World) (a b : Q) : Py Q :=
  r <- draw W ;;
  ret (a + (b - a) * (Z.of_N (r mod 2 ^ 53) # 2 ^ 53))%Q.

Fixpoint for_each {A B} (f : A -> Py B) (l : list A) : Py (list B) :=
  match l with
  | [] => ret []
  | a :: l' => b <- f a ;; bs <- for_each f l' ;; ret (b :: bs)
  end.

(* ------------------------------------------------------------------ *)
(** ** Domain models *)

Module AppointmentSlot.
Record t : Type := {
  provider : string;
  provider_location_id : string;
  provider_location_name : string;
  stylist_name : option string;
  service_name : string;
  start_time : datetime;
  duration_minutes : Z;
  price_cents : Z;
  currency : string;
  latitude : option Q;
  longitude : option Q;
  provider_url : option string;
  provider_internal_id : option string;
  score : option Q
}.

(** [s.score = v]. *)
Definition set_score (s : t) (v : option Q) : t :=
  {| provider := provider s;
     provider_location_id := provider_location_id s;
     provider_location_name := provider_location_name s;
     stylist_name := stylist_name s;
     service_name := service_name s;
     start_time := start_time s;
     duration_minutes := duration_minutes s;
     price_cents := price_cents s;
     currency := currency s;
     latitude := latitude s;
     longitude := longitude s;
     provider_url := provider_url s;
     provider_internal_id := provider_internal_id s;
     score := v |}.
End AppointmentSlot.

Module SearchRequest.
Record t : Type := {
  query : option string;
  when : option string;
  budget_max : option Q;
  distance_miles_max : option Q;
  service : option string;
  stylist : option string;
  lat : option Q;
  lng : option Q;
  limit : Z
}.

(** [SearchRequest()]. *)
Definition default : t :=
  {| query := None; when := None; budget_max := None;
     distance_miles_max := None; service := None; stylist := None;
     lat := None; lng := None; limit := 25 |}.
End SearchRequest.

Module NormalizedSlot.
Record t : Type := {
  id : string;
  provider : string;
  location_name : string;
  service_name : string;
  stylist_name : option string;
  start_time : datetime;
  duration_minutes : Z;
  price_cents : Z;
  currency : string;
  latitude : option Q;
  longitude : option Q;
  book_url : option string;
  score : Q
}.
End NormalizedSlot.

(* ------------------------------------------------------------------ *)
(** ** Python truthiness and arithmetic helpers *)

Definition Qltb (a b : Q) : bool :=
  match (a ?= b)%Q with Lt => true | _ => false end.

(** [max(a, b)]: the first argument unless the second is greater. *)
Definition py_max (a b : Q) : Q := if Qltb a b then b else a.

(** [x or d] for an optional float: [None] and [0.0] are falsy. *)
Definition float_or (x : option Q) (d : Q) : Q :=
  match x with
  | Some v => if Qeq_bool v 0 then d else v
  | None => d
  end.

Definition float_truthy (x : option Q) : bool :=
  match x with
  | Some v => negb (Qeq_bool v 0)
  | None => false
  end.

(** [x or d] for an optional string: [None] and [""] are falsy. *)
Definition str_or (x : option string) (d : string) : string :=
  match x with
  | Some EmptyString | None => d
  | Some s => s
  end.

Definition str_truthy (x : option string) : bool :=
  match x with
  | Some EmptyString | None => false
  | Some _ => true
  end.

(** The integer nearest to [q], ties going to the even one. *)
Definition round_half_even (q : Q) : Z :=
  let f := Qfloor q in
  match (q - inject_Z f ?= 1 # 2)%Q with
  | Lt => f
  | Gt => f + 1
  | Eq => if Z.even f then f else f + 1
  end.

(** [round(q, 4)]. *)
Definition round4 (q : Q) : Q :=
  Qred (Qmake (round_half_even (q * 10000)) 10000).

(* ------------------------------------------------------------------ *)
(** ** Mock connectors (Square, Vagaro) *)

Definition connector_square_haircuts (W : World) (search : SearchRequest.t)
  : Py (list AppointmentSlot.t) :=
  now <- utcnow W ;;
  let base_time := replace_to_hour now + timedelta_hours 1 in
  for_each
    (fun i : nat =>
       h <- randint W 0 48 ;;
       let start := base_time + timedelta_hours h in
       price <- choice W [2500; 3000; 3500; 4000; 4500] ;;
       loc <- randint W 1 3 ;;
       loc_name <- choice W ["Downtown Cuts"; "Clip & Go"; "Fade Factory"] ;;
       stylist <- choice W [Some "Alex"; Some "Jamie"; Some "Riley"; None] ;;
       service <- choice W ["Men's Cut"; "Women's Cut"; "Kids Cut";
                            "Fade + Beard"] ;;
       duration <- choice W [30; 45; 60] ;;
       dlat <- uniform W (-2 # 100) (2 # 100) ;;
       dlng <- uniform W (-2 # 100) (2 # 100) ;;
       ret {| AppointmentSlot.provider := "square";
              AppointmentSlot.provider_location_id :=
                "sq_loc_" ++ PyStr.of_int loc;
              AppointmentSlot.provider_location_name := loc_name;
              AppointmentSlot.stylist_name := stylist;
              AppointmentSlot.service_name := service;
              AppointmentSlot.start_time := start;
              AppointmentSlot.duration_minutes := duration;
              AppointmentSlot.price_cents := price;
              AppointmentSlot.currency := "USD";
              AppointmentSlot.latitude :=
                Some (float_or (SearchRequest.lat search) (377749 # 10000)
                      + dlat)%Q;
              AppointmentSlot.longitude :=
                Some (float_or (SearchRequest.lng search) (-1224194 # 10000)
                      + dlng)%Q;
              AppointmentSlot.provider_url :=
                Some "https://example.com/square/booking";
              AppointmentSlot.provider_internal_id :=
                Some ("sq_" ++ PyStr.of_int (Z.of_nat i));
              AppointmentSlot.score := None |})
    (seq 0 10).

Definition connector_vagaro_haircuts (W : World) (search : SearchRequest.t)
  : Py (list AppointmentSlot.t) :=
  now <- utcnow W ;;
  let base_time := replace_to_hour now + timedelta_hours 2 in
  for_each
    (fun i : nat =>
       h <- randint W 0 72 ;;
       let start := base_time + timedelta_hours h in
       price <- choice W [2000; 2800; 3200; 3800; 5000] ;;
       loc <- randint W 1 3 ;;
       loc_name <- choice W ["Shear Genius"; "Salon Nova"; "Urban Trim"] ;;
       stylist <- choice W [Some "Taylor"; Some "Morgan"; None] ;;
       service <- choice W ["Trim"; "Full Cut"; "Blowout + Cut"] ;;
       duration <- choice W [30; 45; 60] ;;
       dlat <- uniform W (-3 # 100) (3 # 100) ;;
       dlng <- uniform W (-3 # 100) (3 # 100) ;;
       ret {| AppointmentSlot.provider := "vagaro";
              AppointmentSlot.provider_location_id :=
                "vg_loc_" ++ PyStr.of_int loc;
              AppointmentSlot.provider_location_name := loc_name;
              AppointmentSlot.stylist_name := stylist;
              AppointmentSlot.service_name := service;
              AppointmentSlot.start_time := start;
              AppointmentSlot.duration_minutes := duration;
              AppointmentSlot.price_cents := price;
              AppointmentSlot.currency := "USD";
              AppointmentSlot.latitude :=
                Some (float_or (SearchRequest.lat search) (377749 # 10000)
                      + dlat)%Q;
              AppointmentSlot.longitude :=
                Some (float_or (SearchRequest.lng search) (-1224194 # 10000)
                      + dlng)%Q;
              AppointmentSlot.provider_url :=
                Some "https://example.com/vagaro/booking";
              AppointmentSlot.provider_internal_id :=
                Some ("vg_" ++ PyStr.of_int (Z.of_nat i));
              AppointmentSlot.score := None |})
    (seq 0 10).

(* ------------------------------------------------------------------ *)
(** ** Normalization, ranking, simple NLP parsing *)

Definition mem_str (s : string) (l : list string) : bool :=
  existsb (String.eqb s) l.

Definition parse_when_text (W : World) (when_text : option string)
  : Py (option moment) :=
  match when_text with
  | None | Some EmptyString => ret None
  | Some when_text =>
      let text := PyStr.strip_ws (PyStr.lower when_text) in
      try_except
        (if mem_str text ["now"; "asap"; "today"] then
           base <- utcnow W ;; ret (Some (Naive base))
         else if mem_str text ["tomorrow"] then
           now <- utcnow W ;;
           ret (Some (Naive (replace_hour 9 now + timedelta_days 1)))
         else
           now <- utcnow W ;;
           t <- lift (dtparse_parse W when_text now) ;;
           ret (Some t))
        (ret None)
  end.

(** The five terms of the score, named as the locals of [compute_score]. *)
Definition price_score (slot : AppointmentSlot.t) : Q :=
  py_max 0 (1 - (inject_Z (AppointmentSlot.price_cents slot) / 100) / 100)%Q.

Definition early_bonus (slot : AppointmentSlot.t) (now : datetime) : Q :=
  if AppointmentSlot.start_time slot <? now + timedelta_hours 24
  then (2 # 10)%Q else 0%Q.

Definition service_match (W : World) (slot : AppointmentSlot.t)
  (search : SearchRequest.t) : Q :=
  if str_truthy (SearchRequest.service search) then
    (partial_ratio W
       (PyStr.lower (str_or (SearchRequest.service search) ""))
       (PyStr.lower (AppointmentSlot.service_name slot)) / 100)%Q
  else 0%Q.

Definition stylist_match (slot : AppointmentSlot.t) (search : SearchRequest.t)
  : Q :=
  match SearchRequest.stylist search, AppointmentSlot.stylist_name slot with
  | Some wanted, Some name =>
      if str_truthy (Some wanted) && str_truthy (Some name)
         && PyStr.contains (PyStr.lower wanted) (PyStr.lower name)
      then 1%Q else 0%Q
  | _, _ => 0%Q
  end.

Definition proximity (slot : AppointmentSlot.t) (search : SearchRequest.t)
  : Q :=
  match SearchRequest.lat search, SearchRequest.lng search with
  | Some lat, Some lng =>
      if float_truthy (AppointmentSlot.latitude slot)
         && float_truthy (AppointmentSlot.longitude slot)
      then
        match AppointmentSlot.latitude slot, AppointmentSlot.longitude slot
        with
        | Some slat, Some slng =>
            py_max 0
              (1 - (Qabs (slat - lat) + Qabs (slng - lng)) / (1 # 10))%Q
        | _, _ => 0%Q
        end
      else 0%Q
  | _, _ => 0%Q
  end.

Definition compute_score (W : World) (slot : AppointmentSlot.t)
  (search : SearchRequest.t) : Py Q :=
  now <- utcnow W ;;
  ret (round4 (price_score slot + early_bonus slot now
               + (5 # 10) * service_match W slot search
               + (3 # 10) * stylist_match slot search
               + (5 # 10) * proximity slot search)%Q).

(** [f"{x}"] for an optional string. *)
Definition format_opt (x : option string) : string :=
  match x with
  | Some s => s
  | None => "None"
  end.

Fixpoint normalize_slots (W : World) (slots : list AppointmentSlot.t)
  (search : SearchRequest.t) : Py (list NormalizedSlot.t) :=
  match slots with
  | [] => ret []
  | s :: slots' =>
      v <- compute_score W s search ;;
      let s := AppointmentSlot.set_score s (Some v) in
      let n :=
        {| NormalizedSlot.id :=
             AppointmentSlot.provider s ++ ":"
             ++ format_opt (AppointmentSlot.provider_internal_id s);
           NormalizedSlot.provider := AppointmentSlot.provider s;
           NormalizedSlot.location_name :=
             AppointmentSlot.provider_location_name s;
           NormalizedSlot.service_name := AppointmentSlot.service_name s;
           NormalizedSlot.stylist_name := AppointmentSlot.stylist_name s;
           NormalizedSlot.start_time := AppointmentSlot.start_time s;
           NormalizedSlot.duration_minutes :=
             AppointmentSlot.duration_minutes s;
           NormalizedSlot.price_cents := AppointmentSlot.price_cents s;
           NormalizedSlot.currency := AppointmentSlot.currency s;
           NormalizedSlot.latitude := AppointmentSlot.latitude s;
           NormalizedSlot.longitude := AppointmentSlot.longitude s;
           NormalizedSlot.book_url := AppointmentSlot.provider_url s;
           NormalizedSlot.score := float_or (AppointmentSlot.score s) 0 |} in
      normalized <- normalize_slots W slots' search ;;
      ret (n :: normalized)
  end.

(** The budget loop over the tokens of the query. *)
Fixpoint scan_budget (budget : option Q) (tokens : list string)
  : result (option Q) :=
  match tokens with
  | [] => Ok budget
  | token :: tokens' =>
      if PyStr.isdigit token then
        let! value := int_of_str token in
        scan_budget
          (if value <? 200 then Some (inject_Z value) else budget) tokens'
      else scan_budget budget tokens'
  end.

Definition conversational_to_search (query : option string)
  : result SearchRequest.t :=
  match query with
  | None | Some EmptyString => Ok SearchRequest.default
  | Some query =>
      let q := PyStr.lower query in
      let! budget :=
        scan_budget None
          (PyStr.split
             (PyStr.replace_char "," "" (PyStr.replace_char "$" "" q))) in
      let service :=
        if PyStr.contains "fade" q then Some "fade"
        else if PyStr.contains "women" q then Some "Women's Cut"
        else if PyStr.contains "men" q then Some "Men's Cut"
        else None in
      let when :=
        if PyStr.contains "today" q || PyStr.contains "asap" q
        then Some "today"
        else if PyStr.contains "tomorrow" q then Some "tomorrow"
        else None in
      let! stylist :=
        if PyStr.contains "with " q then
          let! rest := index (PyStr.split1 "with " q) 1 in
          let! token := index (PyStr.split rest) 0 in
          Ok (Some (PyStr.strip ".,!" token))
        else Ok None in
      Ok {| SearchRequest.query := Some query;
            SearchRequest.when := when;
            SearchRequest.budget_max := budget;
            SearchRequest.distance_miles_max := None;
            SearchRequest.service := service;
            SearchRequest.stylist := stylist;
            SearchRequest.lat := None;
            SearchRequest.lng := None;
            SearchRequest.limit := 25 |}
  end.

(* ------------------------------------------------------------------ *)
(** ** The aggregation pipeline *)

(** The key of [normalized.sort]: [(-x.score, x.price_cents, x.start_time)]. *)
Definition sort_key (x : NormalizedSlot.t) : Q * Z * datetime :=
  ((- NormalizedSlot.score x)%Q,
   NormalizedSlot.price_cents x,
   NormalizedSlot.start_time x).

(** [a < b] on key tuples: the first position whose items are not equal
    decides. *)
Definition key_lt (a b : Q * Z * datetime) : bool :=
  let '(a1, a2, a3) := a in
  let '(b1, b2, b3) := b in
  if negb (Qeq_bool a1 b1) then Qltb a1 b1
  else if negb (a2 =? b2) then a2 <? b2
  else a3 <? b3.

(** [list.sort(key=...)] is a stable sort that compares keys with [<] only.
    [x] precedes every element of [l] in the original order, so it moves
    past an element only when that element's key is strictly smaller. *)
Fixpoint insert_by_key {A} (key : A -> Q * Z * datetime) (x : A) (l : list A)
  : list A :=
  match l with
  | [] => [x]
  | y :: l' =>
      if key_lt (key y) (key x) then y :: insert_by_key key x l'
      else x :: l
  end.

Fixpoint sort_by_key {A} (key : A -> Q * Z * datetime) (l : list A)
  : list A :=
  match l with
  | [] => []
  | x :: l' => insert_by_key key x (sort_by_key key l')
  end.

(** [l[:stop]]: a negative [stop] counts from the end of the list. *)
Definition slice_to {A} (l : list A) (stop : Z) : list A :=
  if stop <? 0 then firstn (Z.to_nat (Z.of_nat (List.length l) + stop)) l
  else firstn (Z.to_nat stop) l.

(** The body of the filter loop: [true] when the slot is appended.  The
    start time is compared with the bound only for a slot within budget. *)
Definition keep_slot (search : SearchRequest.t) (parsed_when : option moment)
  (s : AppointmentSlot.t) : result bool :=
  if match SearchRequest.budget_max search with
     | Some budget_max =>
         Qltb budget_max (inject_Z (AppointmentSlot.price_cents s) / 100)
     | None => false
     end
  then Ok false
  else
    match parsed_when with
    | Some t =>
        let! before := naive_lt (AppointmentSlot.start_time s) t in
        Ok (negb before)
    | None => Ok true
    end.

(** The filter loop over the raw slots. *)
Fixpoint filter_slots (search : SearchRequest.t)
  (parsed_when : option moment) (raw_results : list AppointmentSlot.t)
  : result (list AppointmentSlot.t) :=
  match raw_results with
  | [] => Ok []
  | s :: rest =>
      let! keep := keep_slot search parsed_when s in
      let! filtered := filter_slots search parsed_when rest in
      Ok (if keep then s :: filtered else filtered)
  end.

(** The two connector tasks run one after the other up to their
    [asyncio.sleep], and [gather] returns their results in task order. *)
Definition search_haircuts_internal (W : World) (search : SearchRequest.t)
  : Py (list NormalizedSlot.t) :=
  parsed_when <- parse_when_text W (SearchRequest.when search) ;;
  square <- connector_square_haircuts W search ;;
  vagaro <- connector_vagaro_haircuts W search ;;
  let raw_results := (square ++ vagaro)%list in
  filtered <- lift (filter_slots search parsed_when raw_results) ;;
  normalized <- normalize_slots W filtered search ;;
  let normalized := sort_by_key sort_key normalized in
  ret (slice_to normalized (SearchRequest.limit search)).

(* ------------------------------------------------------------------ *)
(** ** Routes *)

Module BookingRequest.
Record t : Type := {
  provider : string;
  provider_internal_id : string;
  customer_name : string;
  customer_phone : string
}.
End BookingRequest.

(** The dictionary [api_book] returns. *)
Module Confirmation.
Record t : Type := {
  status : string;
  provider : string;
  provider_internal_id : string;
  confirmation_code : string
}.
End Confirmation.

(** [GET /api/search/haircuts]: the list under the key [results]. *)
Definition api_search_haircuts (W : World) (q when : option string)
  (budget_max distance_miles_max : option Q) (service stylist : option string)
  (lat lng : option Q) (limit : Z) : Py (list NormalizedSlot.t) :=
  search <- (if str_truthy q then lift (conversational_to_search q)
             else ret {| SearchRequest.query := None;
                         SearchRequest.when := when;
                         SearchRequest.budget_max := budget_max;
                         SearchRequest.distance_miles_max :=
                           distance_miles_max;
                         SearchRequest.service := service;
                         SearchRequest.stylist := stylist;
                         SearchRequest.lat := lat;
                         SearchRequest.lng := lng;
                         SearchRequest.limit := limit |}) ;;
  results <- search_haircuts_internal W search ;;
  ret results.

(** [POST /api/book]. *)
Definition api_book (W : World) (req : BookingRequest.t)
  : Py Confirmation.t :=
  n <- randint W 10000 99999 ;;
  ret {| Confirmation.status := "confirmed";
         Confirmation.provider := BookingRequest.provider req;
         Confirmation.provider_internal_id :=
           BookingRequest.provider_internal_id req;
         Confirmation.confirmation_code := "CONF-" ++ PyStr.of_int n |}.

(* ------------------------------------------------------------------ *)
(** ** A concrete world for examples *)

Module Example.

(** A clock that starts at 2025-01-01 00:00:00 and advances by one
    millisecond per reading; draws 0, 7, 14, ...; a ratio of 100 for equal
    strings and 0 otherwise; a date parser that rejects everything. *)
Definition world : World :=
  {| utcnow_at := fun n => 1735689600000000 + 1000 * Z.of_nat n;
     random_at := fun n => (7 * N.of_nat n)%N;
     partial_ratio := fun a b => if String.eqb a b then 100%Q else 0%Q;
     dtparse_parse := fun _ _ => Raise (OtherError "ParserError") |}.

(** The same world with a date parser that answers every phrase with
    2025-08-01 17:00:00 UTC, an aware datetime. *)
Definition zoned_world : World :=
  {| utcnow_at := utcnow_at world;
     random_at := random_at world;
     partial_ratio := partial_ratio world;
     dtparse_parse := fun _ _ => Ok (Aware 1754067600000000 0) |}.

Definition start : Calls := {| clock_calls := 0; random_calls := 0 |}.

Definition request (limit : Z) : SearchRequest.t :=
  {| SearchRequest.query := None; SearchRequest.when := None;
     SearchRequest.budget_max := None;
     SearchRequest.distance_miles_max := None;
     SearchRequest.service := None; SearchRequest.stylist := None;
     SearchRequest.lat := None; SearchRequest.lng := None;
     SearchRequest.limit := limit |}.


Definition request_when (when : string) (limit : Z) : SearchRequest.t :=
  {| SearchRequest.query := None; SearchRequest.when := Some when;
     SearchRequest.budget_max := None;
     SearchRequest.distance_miles_max := None;
     SearchRequest.service := None; SearchRequest.stylist := None;
     SearchRequest.lat := None; SearchRequest.lng := None;
     SearchRequest.limit := limit |}.

Definition request_stylist (stylist : string) : SearchRequest.t :=
  {| SearchRequest.query := None; SearchRequest.when := None;
     SearchRequest.budget_max := None;
     SearchRequest.distance_miles_max := None;
     SearchRequest.service := None; SearchRequest.stylist := Some stylist;
     SearchRequest.lat := None; SearchRequest.lng := None;
     SearchRequest.limit := 25 |}.

Definition booking : BookingRequest.t :=
  {| BookingRequest.provider := "square";
     BookingRequest.provider_internal_id := "sq_3";
     BookingRequest.customer_name := "Ada";
     BookingRequest.customer_phone := "555-0100" |}.

(** A request made at latitude 0.0, longitude 0.0. *)
Definition origin_request : SearchRequest.t :=
  {| SearchRequest.query := None; SearchRequest.when := None;
     SearchRequest.budget_max := None;
     SearchRequest.distance_miles_max := None;
     SearchRequest.service := None; SearchRequest.stylist := None;
     SearchRequest.lat := Some 0%Q; SearchRequest.lng := Some 0%Q;
     SearchRequest.limit := 25 |}.

(** A 30 dollar cut at [start_time], located at [latitude], [longitude]. *)
Definition slot_at (start_time : datetime) (latitude longitude : option Q)
  : AppointmentSlot.t :=
  {| AppointmentSlot.provider := "square";
     AppointmentSlot.provider_location_id := "sq_loc_1";
     AppointmentSlot.provider_location_name := "Downtown Cuts";
     AppointmentSlot.stylist_name := Some "Alex";
     AppointmentSlot.service_name := "Men's Cut";
     AppointmentSlot.start_time := start_time;
     AppointmentSlot.duration_minutes := 30;
     AppointmentSlot.price_cents := 3000;
     AppointmentSlot.currency := "USD";
     AppointmentSlot.latitude := latitude;
     AppointmentSlot.longitude := longitude;
     AppointmentSlot.provider_url := None;
     AppointmentSlot.provider_internal_id := Some "sq_0";
     AppointmentSlot.score := None |}.

(** The first reading of the example clock. *)
Definition now : datetime := utcnow_at world 0.

(** A slot that started one hour before [now]. *)
Definition past_slot : AppointmentSlot.t :=
  slot_at (now - timedelta_hours 1) None None.

(** A slot at latitude 0.0, longitude 0.0. *)
Definition origin_slot : AppointmentSlot.t :=
  slot_at (now + timedelta_hours 1) (Some 0%Q) (Some 0%Q).

End Example.

(* ------------------------------------------------------------------ *)
(** ** Specification vocabulary *)

(** The computation returns a value from every state. *)
Definition succeeds {A} (m : Py A) : Prop :=
  forall st, exists a st', m st = (Ok a, st').

(** The state after [n] further readings of the clock. *)
Definition after_clock_reads (n : nat) (st : Calls) : Calls :=
  {| clock_calls := clock_calls st + n; random_calls := random_calls st |}.

(** [a] may stand before [b] in a ranked list. *)
Definition rank_le (a b : NormalizedSlot.t) : Prop :=
  (NormalizedSlot.score b <= NormalizedSlot.score a)%Q /\
  ((NormalizedSlot.score a == NormalizedSlot.score b)%Q ->
   NormalizedSlot.price_cents a <= NormalizedSlot.price_cents b) /\
  ((NormalizedSlot.score a == NormalizedSlot.score b)%Q ->
   NormalizedSlot.price_cents a = NormalizedSlot.price_cents b ->
   NormalizedSlot.start_time a <= NormalizedSlot.start_time b).

(** The fields of [n] that are taken over from the raw slot [s]. *)
Definition copied_from (s : AppointmentSlot.t) (n : NormalizedSlot.t) : Prop :=
  NormalizedSlot.provider n = AppointmentSlot.provider s /\
  NormalizedSlot.location_name n = AppointmentSlot.provider_location_name s /\
  NormalizedSlot.service_name n = AppointmentSlot.service_name s /\
  NormalizedSlot.stylist_name n = AppointmentSlot.stylist_name s /\
  NormalizedSlot.start_time n = AppointmentSlot.start_time s /\
  NormalizedSlot.duration_minutes n = AppointmentSlot.duration_minutes s /\
  NormalizedSlot.price_cents n = AppointmentSlot.price_cents s /\
  NormalizedSlot.currency n = AppointmentSlot.currency s /\
  NormalizedSlot.latitude n = AppointmentSlot.latitude s /\
  NormalizedSlot.longitude n = AppointmentSlot.longitude s /\
  NormalizedSlot.book_url n = AppointmentSlot.provider_url s.

(** The record [normalize_slots] builds from [s] when the score is [v]. *)
Definition normalized_with (s : AppointmentSlot.t) (v : Q) : NormalizedSlot.t :=
  {| NormalizedSlot.id :=
       AppointmentSlot.provider s ++ ":"
       ++ format_opt (AppointmentSlot.provider_internal_id s);
     NormalizedSlot.provider := AppointmentSlot.provider s;
     NormalizedSlot.location_name := AppointmentSlot.provider_location_name s;
     NormalizedSlot.service_name := AppointmentSlot.service_name s;
     NormalizedSlot.stylist_name := AppointmentSlot.stylist_name s;
     NormalizedSlot.start_time := AppointmentSlot.start_time s;
     NormalizedSlot.duration_minutes := AppointmentSlot.duration_minutes s;
     NormalizedSlot.price_cents := AppointmentSlot.price_cents s;
     NormalizedSlot.currency := AppointmentSlot.currency s;
     NormalizedSlot.latitude := AppointmentSlot.latitude s;
     NormalizedSlot.longitude := AppointmentSlot.longitude s;
     NormalizedSlot.book_url := AppointmentSlot.provider_url s;
     NormalizedSlot.score := v |}.

(** The id [normalize_slots] composes for a raw slot. *)
Definition composed_id (s : AppointmentSlot.t) : string :=
  AppointmentSlot.provider s ++ ":"
  ++ format_opt (AppointmentSlot.provider_internal_id s).

(** The ids of the twenty raw slots of one search, in connector order. *)
Definition connector_ids : list string :=
  List.app
    (map (fun i => "square:sq_" ++ PyStr.of_int (Z.of_nat i)) (seq 0 10))
    (map (fun i => "vagaro:vg_" ++ PyStr.of_int (Z.of_nat i)) (seq 0 10)).

(** A budget is a whole number of dollars from 0 to 199. *)
Definition small_budget (budget : option Q) : Prop :=
  match budget with
  | Some b => exists n, b = inject_Z n /\ 0 <= n < 200
  | None => True
  end.

(** The bound of the time filter is an aware datetime. *)
Definition aware_bound (parsed_when : option moment) : bool :=
  match parsed_when with
  | Some (Aware _ _) => true
  | _ => false
  end.

(** The filter loop appends the slot. *)
Definition kept (search : SearchRequest.t) (parsed_when : option moment)
  (s : AppointmentSlot.t) : bool :=
  match keep_slot search parsed_when s with
  | Ok keep => keep
  | Raise _ => false
  end.

(** [n] is the record [normalize_slots] builds from [s], for some score. *)
Definition built (s : AppointmentSlot.t) (n : NormalizedSlot.t) : Prop :=
  exists v, n = normalized_with s v.

(** Every token of the query that passes [isdigit] is accepted by [int]. *)
Definition digits_convert (query : string) : bool :=
  forallb
    (fun token =>
       negb (PyStr.isdigit token)
       || match int_of_str token with Ok _ => true | Raise _ => false end)
    (PyStr.split
       (PyStr.replace_char "," ""
          (PyStr.replace_char "$" "" (PyStr.lower query)))).

(** The same request with another [limit]. *)
Definition with_limit (search : SearchRequest.t) (limit : Z)
  : SearchRequest.t :=
  {| SearchRequest.query := SearchRequest.query search;
     SearchRequest.when := SearchRequest.when search;
     SearchRequest.budget_max := SearchRequest.budget_max search;
     SearchRequest.distance_miles_max :=
       SearchRequest.distance_miles_max search;
     SearchRequest.service := SearchRequest.service search;
     SearchRequest.stylist := SearchRequest.stylist search;
     SearchRequest.lat := SearchRequest.lat search;
     SearchRequest.lng := SearchRequest.lng search;
     SearchRequest.limit := limit |}.


(** Every digit of [s] is a decimal digit: [s] holds no superscript digit. *)
Definition plain_digits (s : string) : bool :=
  PyStr.forallb_str
    (fun c => implb (PyStr.isdigit_char c) (PyStr.isdecimal_char c)) s.

(** The state after [n] further draws of the [random] module. *)
Definition after_draws (n : nat) (st : Calls) : Calls :=
  {| clock_calls := clock_calls st; random_calls := n + random_calls st |}.

(** The state after one reading of the clock and [n] draws. *)
Definition after_reading_and_draws (n : nat) (st : Calls) : Calls :=
  {| clock_calls := S (clock_calls st); random_calls := n + random_calls st |}.

(** What a mock connector puts into its [i]-th slot, whatever is drawn:
    [base] is the connector's base time and [hours] the width of its start
    window, [spread] the largest offset of a coordinate from its centre. *)
Record listing : Type := {
  l_provider : string;
  l_id_prefix : string;
  l_url : string;
  l_hours : Z;
  l_prices : list Z;
  l_spread : Q
}.

Definition square_listing : listing :=
  {| l_provider := "square"; l_id_prefix := "sq_";
     l_url := "https://example.com/square/booking";
     l_hours := 48; l_prices := [2500; 3000; 3500; 4000; 4500];
     l_spread := (2 # 100)%Q |}.

Definition vagaro_listing : listing :=
  {| l_provider := "vagaro"; l_id_prefix := "vg_";
     l_url := "https://example.com/vagaro/booking";
     l_hours := 72; l_prices := [2000; 2800; 3200; 3800; 5000];
     l_spread := (3 # 100)%Q |}.

(** The centre of the mock coordinates: [search.lat or 37.7749] and
    [search.lng or -122.4194]. *)
Definition centre_lat (search : SearchRequest.t) : Q :=
  float_or (SearchRequest.lat search) (377749 # 10000).

Definition centre_lng (search : SearchRequest.t) : Q :=
  float_or (SearchRequest.lng search) (-1224194 # 10000).

Definition near (spread centre : Q) (x : option Q) : Prop :=
  exists v, x = Some v /\ (centre - spread <= v)%Q /\ (v < centre + spread)%Q.

Definition listed (L : listing) (base : datetime) (search : SearchRequest.t)
  (i : nat) (s : AppointmentSlot.t) : Prop :=
  AppointmentSlot.provider s = l_provider L /\
  AppointmentSlot.provider_internal_id s
  = Some (l_id_prefix L ++ PyStr.of_int (Z.of_nat i)) /\
  AppointmentSlot.provider_url s = Some (l_url L) /\
  AppointmentSlot.currency s = "USD" /\
  AppointmentSlot.score s = None /\
  (exists h, 0 <= h <= l_hours L /\
             AppointmentSlot.start_time s = base + timedelta_hours h) /\
  In (AppointmentSlot.price_cents s) (l_prices L) /\
  In (AppointmentSlot.duration_minutes s) [30; 45; 60] /\
  near (l_spread L) (centre_lat search) (AppointmentSlot.latitude s) /\
  near (l_spread L) (centre_lng search) (AppointmentSlot.longitude s).

(* ------------------------------------------------------------------ *)
(** ** Running effectful code *)

Section Runs.
Variable W : World.

Lemma succeeds_ret {A} (a : A) : succeeds (ret a).
Proof. intros st. exists a, st. reflexivity. Qed.

Lemma succeeds_bind {A B} (m : Py A) (k : A -> Py B) :
  succeeds m -> (forall a, succeeds (k a)) -> succeeds (bind m k).
Proof.
  intros Hm Hk st. destruct (Hm st) as (a & st1 & Ea).
  destruct (Hk a st1) as (b & st2 & Eb).
  exists b, st2. unfold bind. rewrite Ea. exact Eb.
Qed.

Lemma succeeds_try_except {A} (body handler : Py A) :
  succeeds handler -> succeeds (try_except body handler).
Proof.
  intros Hh st. unfold try_except.
  destruct (body st) as [[a | e] st1].
  - exists a, st1. reflexivity.
  - apply Hh.
Qed.

Lemma succeeds_utcnow : succeeds (utcnow W).
Proof. intros st. eexists. eexists. reflexivity. Qed.

Lemma succeeds_draw : succeeds (draw W).
Proof. intros st. eexists. eexists. reflexivity. Qed.

Lemma succeeds_randint a b : succeeds (randint W a b).
Proof.
  apply succeeds_bind; [apply succeeds_draw | intros; apply succeeds_ret].
Qed.

Lemma succeeds_uniform a b : succeeds (uniform W a b).
Proof.
  apply succeeds_bind; [apply succeeds_draw | intros; apply succeeds_ret].
Qed.

Lemma succeeds_choice {A} (l : list A) : l <> [] -> succeeds (choice W l).
Proof.
  destruct l as [| d l]; [congruence | intros _].
  apply succeeds_bind; [apply succeeds_draw | intros; apply succeeds_ret].
Qed.

Lemma succeeds_for_each {A B} (f : A -> Py B) (l : list A) :
  (forall a, succeeds (f a)) -> succeeds (for_each f l).
Proof.
  intros Hf. induction l as [| a l IH]; simpl.
  - apply succeeds_ret.
  - apply succeeds_bind; [apply Hf | intros b].
    apply succeeds_bind; [exact IH | intros bs; apply succeeds_ret].
Qed.

Ltac run_step :=
  lazymatch goal with
  | |- succeeds (ret _) => apply succeeds_ret
  | |- succeeds (utcnow _) => apply succeeds_utcnow
  | |- succeeds (randint _ _ _) => apply succeeds_randint
  | |- succeeds (uniform _ _ _) => apply succeeds_uniform
  | |- succeeds (choice _ _) => apply succeeds_choice; discriminate
  | |- succeeds (for_each _ _) => apply succeeds_for_each; intros
  | |- succeeds (bind _ _) => apply succeeds_bind; [| intros]
  end.

Lemma succeeds_connector_square search :
  succeeds (connector_square_haircuts W search).
Proof. unfold connector_square_haircuts. repeat run_step. Qed.

Lemma succeeds_connector_vagaro search :
  succeeds (connector_vagaro_haircuts W search).
Proof. unfold connector_vagaro_haircuts. repeat run_step. Qed.

Lemma succeeds_parse_when_text when_text :
  succeeds (parse_when_text W when_text).
Proof.
  unfold parse_when_text.
  destruct when_text as [[| c s] |]; try apply succeeds_ret.
  apply succeeds_try_except, succeeds_ret.
Qed.

Lemma compute_score_run slot search st :
  compute_score W slot search st =
  (Ok (round4 (price_score slot
               + early_bonus slot (utcnow_at W (clock_calls st))
               + (5 # 10) * service_match W slot search
               + (3 # 10) * stylist_match slot search
               + (5 # 10) * proximity slot search)),
   after_clock_reads 1 st).
Proof.
  unfold compute_score, bind, utcnow, ret, after_clock_reads.
  rewrite Nat.add_1_r. reflexivity.
Qed.

Lemma after_clock_reads_0 st : after_clock_reads 0 st = st.
Proof.
  destruct st as [c r]. unfold after_clock_reads; simpl.
  rewrite Nat.add_0_r. reflexivity.
Qed.

Lemma after_clock_reads_S n st :
  after_clock_reads n (after_clock_reads 1 st) = after_clock_reads (S n) st.
Proof.
  unfold after_clock_reads; simpl. f_equal. lia.
Qed.

(** A rounded score that is zero is the literal zero, so [score or 0.0]
    hands back the score itself. *)
Lemma float_or_round4 q : float_or (Some (round4 q)) 0 = round4 q.
Proof.
  unfold float_or. destruct (Qeq_bool (round4 q) 0) eqn:E; [| reflexivity].
  apply Qeq_bool_iff in E. unfold round4 in *.
  rewrite Qred_correct in E. apply Qred_complete in E. rewrite E. reflexivity.
Qed.

Lemma normalize_slots_cons search s slots :
  normalize_slots W (s :: slots) search =
  (v <- compute_score W s search ;;
   normalized <- normalize_slots W slots search ;;
   ret (normalized_with s (float_or (Some v) 0) :: normalized)).
Proof. reflexivity. Qed.

Lemma copied_from_normalized_with s v : copied_from s (normalized_with s v).
Proof. repeat split. Qed.

(** One run of the normalisation loop: it reads the clock once per slot,
    copies the raw fields and stores the score computed at that reading. *)
Lemma normalize_slots_run search slots :
  forall st,
  exists ns,
    normalize_slots W slots search st
    = (Ok ns, after_clock_reads (List.length slots) st) /\
    Forall2 copied_from slots ns /\
    forall i s, nth_error slots i = Some s ->
      exists n, nth_error ns i = Some n /\
        compute_score W s search (after_clock_reads i st)
        = (Ok (NormalizedSlot.score n), after_clock_reads (S i) st).
Proof.
  induction slots as [| s slots IH]; intros st.
  - exists []. simpl. rewrite after_clock_reads_0. repeat split.
    + constructor.
    + intros [| i] s0 H; discriminate.
  - destruct (IH (after_clock_reads 1 st)) as (ns & Erun & Hcopy & Hscore).
    pose proof (compute_score_run s search st) as Ec.
    set (v := round4 _) in Ec.
    exists (normalized_with s v :: ns). split; [| split].
    + rewrite normalize_slots_cons. unfold bind at 1. rewrite Ec.
      unfold bind at 1. rewrite Erun. unfold ret, v.
      rewrite float_or_round4, after_clock_reads_S. reflexivity.
    + constructor; [apply copied_from_normalized_with | exact Hcopy].
    + intros [| i] s0 H.
      * injection H as <-. exists (normalized_with s v).
        split; [reflexivity |].
        rewrite after_clock_reads_0. exact Ec.
      * destruct (Hscore i s0 H) as (n & Hn & Hc).
        exists n. split; [exact Hn |].
        rewrite !after_clock_reads_S in Hc. exact Hc.
Qed.

End Runs.

(* ------------------------------------------------------------------ *)
(** ** Ranking: the sort and the slice *)

Section Ranking.

Lemma Qltb_true a b : Qltb a b = true -> (a < b)%Q.
Proof.
  unfold Qltb. destruct (a ?= b)%Q eqn:E; try discriminate.
  intros _. apply Qlt_alt. exact E.
Qed.

Lemma Qltb_false a b : Qltb a b = false -> (b <= a)%Q.
Proof.
  unfold Qltb. destruct (a ?= b)%Q eqn:E; intros H; try discriminate.
  - apply Qeq_alt in E. lra.
  - apply Qgt_alt in E. lra.
Qed.

Lemma Qeq_bool_false a b : Qeq_bool a b = false -> ~ (a == b)%Q.
Proof. intros H E. apply Qeq_bool_iff in E. congruence. Qed.

(** The element that [insert_by_key] leaves in front may stay in front. *)
Lemma key_lt_false_rank x y :
  key_lt (sort_key y) (sort_key x) = false -> rank_le x y.
Proof.
  unfold key_lt, sort_key, rank_le.
  destruct (Qeq_bool _ _) eqn:Es; simpl.
  - apply Qeq_bool_iff in Es.
    destruct (Z.eqb_spec (NormalizedSlot.price_cents y)
                         (NormalizedSlot.price_cents x)) as [Ep | Ep]; simpl.
    + intros H. apply Z.ltb_ge in H. repeat split; intros; try lia; lra.
    + intros H. apply Z.ltb_ge in H. repeat split; intros; try lia; lra.
  - apply Qeq_bool_false in Es. intros H. apply Qltb_false in H.
    repeat split; intros; try lra.
Qed.

(** The element that [insert_by_key] moves past belongs in front. *)
Lemma key_lt_true_rank x y :
  key_lt (sort_key y) (sort_key x) = true -> rank_le y x.
Proof.
  unfold key_lt, sort_key, rank_le.
  destruct (Qeq_bool _ _) eqn:Es; simpl.
  - apply Qeq_bool_iff in Es.
    destruct (Z.eqb_spec (NormalizedSlot.price_cents y)
                         (NormalizedSlot.price_cents x)) as [Ep | Ep]; simpl.
    + intros H. apply Z.ltb_lt in H. repeat split; intros; try lia; lra.
    + intros H. apply Z.ltb_lt in H. repeat split; intros; try lia; lra.
  - apply Qeq_bool_false in Es. intros H. apply Qltb_true in H.
    repeat split; intros; try lra.
Qed.

Lemma rank_le_trans a b c : rank_le a b -> rank_le b c -> rank_le a c.
Proof.
  unfold rank_le. intros (S1 & P1 & T1) (S2 & P2 & T2).
  split; [lra |]. split.
  - intros E. assert (Eab : (NormalizedSlot.score a == NormalizedSlot.score b)%Q) by lra.
    assert (Ebc : (NormalizedSlot.score b == NormalizedSlot.score c)%Q) by lra.
    specialize (P1 Eab). specialize (P2 Ebc). lia.
  - intros E Ep.
    assert (Eab : (NormalizedSlot.score a == NormalizedSlot.score b)%Q) by lra.
    assert (Ebc : (NormalizedSlot.score b == NormalizedSlot.score c)%Q) by lra.
    specialize (P1 Eab). specialize (P2 Ebc).
    assert (NormalizedSlot.price_cents a = NormalizedSlot.price_cents b) by lia.
    assert (NormalizedSlot.price_cents b = NormalizedSlot.price_cents c) by lia.
    specialize (T1 Eab). specialize (T2 Ebc). lia.
Qed.

Lemma insert_by_key_perm {A} (key : A -> Q * Z * datetime) x l :
  Permutation (x :: l) (insert_by_key key x l).
Proof.
  induction l as [| y l IH]; simpl.
  - apply Permutation_refl.
  - destruct (key_lt (key y) (key x)).
    + eapply perm_trans; [apply perm_swap |]. apply perm_skip, IH.
    + apply Permutation_refl.
Qed.

Lemma sort_by_key_perm {A} (key : A -> Q * Z * datetime) l :
  Permutation l (sort_by_key key l).
Proof.
  induction l as [| x l IH]; simpl.
  - apply perm_nil.
  - eapply perm_trans; [apply perm_skip, IH | apply insert_by_key_perm].
Qed.

Lemma insert_by_key_sorted x l :
  Sorted rank_le l -> Sorted rank_le (insert_by_key sort_key x l).
Proof.
  induction 1 as [| y l Hs IH Hd]; cbn [insert_by_key].
  - repeat constructor.
  - destruct (key_lt (sort_key y) (sort_key x)) eqn:E.
    + constructor; [exact IH |].
      destruct Hd as [| z l Hyz]; cbn [insert_by_key].
      * constructor. apply key_lt_true_rank, E.
      * destruct (key_lt (sort_key z) (sort_key x));
          constructor; [exact Hyz | apply key_lt_true_rank, E].
    + constructor; [constructor; assumption |].
      constructor. apply key_lt_false_rank, E.
Qed.

Lemma sort_by_key_sorted l : StronglySorted rank_le (sort_by_key sort_key l).
Proof.
  apply Sorted_StronglySorted.
  - intros a b c. apply rank_le_trans.
  - induction l as [| x l IH]; cbn [sort_by_key].
    + constructor.
    + apply insert_by_key_sorted, IH.
Qed.

Lemma firstn_In {A} n (l : list A) x : In x (firstn n l) -> In x l.
Proof.
  intros H. rewrite <- (firstn_skipn n l). apply in_or_app. left. exact H.
Qed.

Lemma StronglySorted_firstn {A} (R : A -> A -> Prop) n l :
  StronglySorted R l -> StronglySorted R (firstn n l).
Proof.
  intros H. revert n. induction H as [| x l Hs IH Hf]; intros [| n]; simpl;
    try constructor.
  - apply IH.
  - rewrite Forall_forall in *. intros y Hy. apply Hf.
    eapply firstn_In; eauto.
Qed.

Lemma slice_to_sorted {A} (R : A -> A -> Prop) l stop :
  StronglySorted R l -> StronglySorted R (slice_to l stop).
Proof.
  intros H. unfold slice_to.
  destruct (stop <? 0); apply StronglySorted_firstn, H.
Qed.

Lemma slice_to_In {A} (l : list A) stop x : In x (slice_to l stop) -> In x l.
Proof.
  unfold slice_to. destruct (stop <? 0); apply firstn_In.
Qed.

Lemma slice_to_length {A} (l : list A) stop :
  Z.of_nat (List.length (slice_to l stop)) =
  if stop <? 0 then Z.max 0 (Z.of_nat (List.length l) + stop)
  else Z.min stop (Z.of_nat (List.length l)).
Proof.
  unfold slice_to.
  destruct (Z.ltb_spec stop 0); rewrite length_firstn; lia.
Qed.

End Ranking.

(* ------------------------------------------------------------------ *)
(** ** Properties of the mock connectors *)

Section Connectors.
Variable W : World.

Lemma after_draws_add (n m : nat) (st : Calls) :
  after_draws n (after_draws m st) = after_draws (n + m) st.
Proof.
  unfold after_draws. cbn [clock_calls random_calls].
  now rewrite Nat.add_assoc.
Qed.

(** A loop whose body always returns after [k] draws returns after
    [k * length l] draws, with one result per element. *)
Lemma for_each_run {A B} (f : A -> Py B) (P : A -> B -> Prop) (k : nat) :
  (forall a st, exists b, f a st = (Ok b, after_draws k st) /\ P a b) ->
  forall l st,
  exists bs,
    for_each f l st = (Ok bs, after_draws (List.length l * k) st) /\
    Forall2 P l bs.
Proof.
  intros Hf. induction l as [| a l IH]; intros st.
  - exists []. split; [destruct st; reflexivity | constructor].
  - destruct (Hf a st) as (b & Eb & Pb).
    destruct (IH (after_draws k st)) as (bs & Ebs & Pbs).
    exists (b :: bs). split; [| constructor; assumption].
    cbn [for_each]. unfold bind. rewrite Eb, Ebs. unfold ret.
    rewrite after_draws_add. cbn [List.length].
    replace (S (List.length l) * k)%nat with (List.length l * k + k)%nat
      by lia.
    reflexivity.
Qed.

Lemma randint_range (a b : Z) (r : N) :
  a <= b -> a <= a + Z.of_N r mod (b - a + 1) <= b.
Proof.
  intros Hab.
  pose proof (Z.mod_pos_bound (Z.of_N r) (b - a + 1)). lia.
Qed.

Lemma choice_In {A} (l : list A) (d : A) (r : N) :
  l <> [] -> In (nth (N.to_nat r mod List.length l) l d) l.
Proof.
  intros Hl. apply nth_In. apply Nat.mod_upper_bound.
  destruct l; [congruence | discriminate].
Qed.

Lemma uniform_range (a b : Q) (r : N) :
  (a <= b)%Q ->
  let t := (Z.of_N (r mod 2 ^ 53) # 2 ^ 53)%Q in
  (0 <= t)%Q /\ (t < 1)%Q.
Proof.
  intros _ t.
  assert (Hr : (r mod 2 ^ 53 < 2 ^ 53)%N) by (apply N.mod_lt; discriminate).
  unfold t, Qle, Qlt. cbn [Qnum Qden].
  rewrite Z.mul_0_l, !Z.mul_1_r, Z.mul_1_l.
  change (Z.pos (2 ^ 53)) with (Z.of_N (2 ^ 53)).
  split; [apply N2Z.is_nonneg | apply N2Z.inj_lt, Hr].
Qed.

Lemma near_uniform (spread centre : Q) (r : N) :
  (0 < spread)%Q ->
  near spread centre
    (Some (centre
           + (- spread
              + (spread - - spread)
                * (Z.of_N (r mod 2 ^ 53) # 2 ^ 53)))%Q).
Proof.
  intros Hs. destruct (uniform_range 0 1 r) as [H0 H1]; [discriminate |].
  eexists. split; [reflexivity |].
  set (t := (Z.of_N (r mod 2 ^ 53) # 2 ^ 53)%Q) in *.
  assert (Hlo : (0 <= spread * t)%Q) by (apply Qmult_le_0_compat; lra).
  assert (Hhi : (spread * t < spread * 1)%Q)
    by (apply Qmult_lt_l; assumption).
  split; lra.
Qed.

End Connectors.

Section ConnectorRuns.
Variable W : World.

Ltac run_iteration :=
  intros i st0;
  cbv beta iota delta [bind randint choice uniform draw ret
                       random_calls clock_calls];
  eexists; split; [reflexivity |];
  unfold listed;
  cbn [AppointmentSlot.provider AppointmentSlot.provider_internal_id
       AppointmentSlot.provider_url AppointmentSlot.currency
       AppointmentSlot.score AppointmentSlot.start_time
       AppointmentSlot.price_cents AppointmentSlot.duration_minutes
       AppointmentSlot.latitude AppointmentSlot.longitude
       l_provider l_id_prefix l_url l_hours l_prices l_spread
       square_listing vagaro_listing];
  repeat lazymatch goal with
    | |- _ /\ _ => split
    | |- _ = _ => reflexivity
    | |- exists h, _ <= h <= _ /\ _ =>
        eexists; split; [apply randint_range; lia | reflexivity]
    | |- In _ _ => apply choice_In; discriminate
    | |- near ?spread ?centre _ =>
        refine (near_uniform spread centre _ _); reflexivity
    end.

Lemma connector_square_run (search : SearchRequest.t) (st : Calls) :
  exists slots,
    connector_square_haircuts W search st
    = (Ok slots, after_reading_and_draws 90 st) /\
    Forall2 (listed square_listing
               (replace_to_hour (utcnow_at W (clock_calls st))
                + timedelta_hours 1) search)
            (seq 0 10) slots.
Proof.
  unfold connector_square_haircuts. unfold bind at 1. unfold utcnow.
  cbv zeta.
  match goal with
  | |- context [for_each ?f ?l ?s] =>
      assert (Hiter :
                forall i st0, exists b,
                    f i st0 = (Ok b, after_draws 9 st0) /\
                    listed square_listing
                      (replace_to_hour (utcnow_at W (clock_calls st))
                       + timedelta_hours 1) search i b);
      [| destruct (for_each_run f _ 9 Hiter l s) as (slots & E & HP)]
  end.
  { run_iteration. }
  exists slots. split; [| exact HP].
  rewrite E. reflexivity.
Qed.

Lemma connector_vagaro_run (search : SearchRequest.t) (st : Calls) :
  exists slots,
    connector_vagaro_haircuts W search st
    = (Ok slots, after_reading_and_draws 90 st) /\
    Forall2 (listed vagaro_listing
               (replace_to_hour (utcnow_at W (clock_calls st))
                + timedelta_hours 2) search)
            (seq 0 10) slots.
Proof.
  unfold connector_vagaro_haircuts. unfold bind at 1. unfold utcnow.
  cbv zeta.
  match goal with
  | |- context [for_each ?f ?l ?s] =>
      assert (Hiter :
                forall i st0, exists b,
                    f i st0 = (Ok b, after_draws 9 st0) /\
                    listed vagaro_listing
                      (replace_to_hour (utcnow_at W (clock_calls st))
                       + timedelta_hours 2) search i b);
      [| destruct (for_each_run f _ 9 Hiter l s) as (slots & E & HP)]
  end.
  { run_iteration. }
  exists slots. split; [| exact HP].
  rewrite E. reflexivity.
Qed.

End ConnectorRuns.

Lemma Forall2_seq_nth {B} (P : nat -> B -> Prop) (n : nat) :
  forall k bs i b,
    Forall2 P (seq k n) bs -> nth_error bs i = Some b -> P (k + i)%nat b.
Proof.
  induction n as [| n IH]; intros k bs i b H Hi; cbn [seq] in H.
  - inversion H; subst. destruct i; discriminate Hi.
  - inversion H as [| a b0 l bs0 Hab Hrest]; subst.
    destruct i as [| i]; cbn [nth_error] in Hi.
    + injection Hi as <-. now rewrite Nat.add_0_r.
    + rewrite <- Nat.add_succ_comm. eapply IH; eassumption.
Qed.

Lemma Forall2_length_seq {B} (P : nat -> B -> Prop) k n bs :
  Forall2 P (seq k n) bs -> List.length bs = n.
Proof.
  intros H. apply Forall2_length in H. now rewrite length_seq in H.
Qed.

Lemma Forall2_Forall_r {A B} (P : A -> B -> Prop) (Q : B -> Prop) l bs :
  (forall a b, P a b -> Q b) -> Forall2 P l bs -> Forall Q bs.
Proof. intros HPQ H. induction H; constructor; eauto. Qed.

(** A slot listed by a connector starts on the hour, after the connector's
    reading of the clock when the base time is at least one hour past the
    reading's hour. *)
Lemma listed_start (L : listing) (now : datetime) (k : Z) search i s :
  1 <= k ->
  listed L (replace_to_hour now + timedelta_hours k) search i s ->
  now < AppointmentSlot.start_time s
      <= now + timedelta_hours (k + l_hours L) /\
  AppointmentSlot.start_time s mod timedelta_hours 1 = 0.
Proof.
  intros Hk (_ & _ & _ & _ & _ & (h & Hh & ->) & _).
  unfold replace_to_hour, timedelta_hours in *.
  rewrite Z.mul_1_l.
  pose proof (Z.mod_pos_bound now 3600000000 eq_refl) as Hm.
  pose proof (Z.div_mod now 3600000000) as Hd.
  split; [nia |].
  replace (now - now mod 3600000000 + k * 3600000000 + h * 3600000000)
    with ((now / 3600000000 + k + h) * 3600000000) by lia.
  apply Z.mod_mul. discriminate.
Qed.

(* ------------------------------------------------------------------ *)
(** ** One run of the pipeline *)

Lemma Forall2_In_r {A B} (R : A -> B -> Prop) l l' y :
  Forall2 R l l' -> In y l' -> exists x, In x l /\ R x y.
Proof.
  induction 1 as [| x y' l l' Hxy _ IH]; intros Hin; [destruct Hin |].
  destruct Hin as [<- | Hin].
  - exists x. split; [left; reflexivity | exact Hxy].
  - destruct (IH Hin) as (x' & Hx' & HR). exists x'. split; [right |]; auto.
Qed.

Lemma aware_bound_true pw :
  aware_bound pw = true -> exists t utcoffset, pw = Some (Aware t utcoffset).
Proof. destruct pw as [[t | t o] |]; try discriminate. eauto. Qed.

(** The filter loop fails only on the comparison of a start time with an
    aware bound. *)
Lemma keep_slot_raises search pw s e :
  keep_slot search pw s = Raise e -> e = TypeError /\ aware_bound pw = true.
Proof.
  unfold keep_slot.
  destruct (match SearchRequest.budget_max search with
            | Some b => _ | None => false end); [discriminate |].
  destruct pw as [[t | t o] |]; cbn [naive_lt rbind]; try discriminate.
  intros H. injection H as <-. auto.
Qed.

Lemma keep_slot_kept search pw s keep :
  keep_slot search pw s = Ok keep -> kept search pw s = keep.
Proof. unfold kept. now intros ->. Qed.

Lemma keep_slot_returns search pw s :
  aware_bound pw = false -> keep_slot search pw s = Ok (kept search pw s).
Proof.
  intros Hpw. unfold kept.
  destruct (keep_slot search pw s) as [keep | e] eqn:E; [reflexivity |].
  apply keep_slot_raises in E as [_ E]. congruence.
Qed.

Lemma filter_slots_kept search pw raw :
  forall filtered,
    filter_slots search pw raw = Ok filtered ->
    filtered = filter (kept search pw) raw.
Proof.
  induction raw as [| s raw IH]; intros filtered H; cbn [filter_slots] in H.
  - injection H as <-. reflexivity.
  - destruct (keep_slot search pw s) as [keep | e] eqn:Ek;
      [| discriminate H].
    cbn [rbind] in H.
    destruct (filter_slots search pw raw) as [rest | e];
      [| discriminate H].
    cbn [rbind] in H. injection H as <-.
    cbn [filter]. rewrite (keep_slot_kept _ _ _ _ Ek), <- (IH rest eq_refl).
    reflexivity.
Qed.

Lemma filter_slots_raises search pw raw e :
  filter_slots search pw raw = Raise e ->
  e = TypeError /\ aware_bound pw = true.
Proof.
  induction raw as [| s raw IH]; cbn [filter_slots]; [discriminate |].
  destruct (keep_slot search pw s) as [keep | e'] eqn:Ek; cbn [rbind].
  - destruct (filter_slots search pw raw) as [rest | e'']; cbn [rbind];
      [discriminate |].
    intros H. injection H as <-. apply IH. reflexivity.
  - intros H. injection H as <-. exact (keep_slot_raises _ _ _ _ Ek).
Qed.

Lemma filter_slots_returns search pw raw :
  aware_bound pw = false ->
  filter_slots search pw raw = Ok (filter (kept search pw) raw).
Proof.
  intros Hpw.
  destruct (filter_slots search pw raw) as [filtered | e] eqn:E.
  - now rewrite (filter_slots_kept _ _ _ _ E).
  - apply filter_slots_raises in E as [_ E]. congruence.
Qed.


Lemma kept_when search t s :
  kept search (Some (Naive t)) s = true ->
  t <= AppointmentSlot.start_time s.
Proof.
  unfold kept, keep_slot.
  destruct (match SearchRequest.budget_max search with
            | Some b => _ | None => false end); [discriminate |].
  cbn [naive_lt rbind].
  destruct (Z.ltb_spec (AppointmentSlot.start_time s) t);
    [discriminate | auto].
Qed.

Lemma kept_unfiltered search s :
  SearchRequest.budget_max search = None -> kept search None s = true.
Proof. unfold kept, keep_slot. now intros ->. Qed.

Lemma kept_later search t s :
  SearchRequest.budget_max search = None ->
  t <= AppointmentSlot.start_time s ->
  kept search (Some (Naive t)) s = true.
Proof.
  unfold kept, keep_slot. intros -> H. cbn [naive_lt rbind].
  destruct (Z.ltb_spec (AppointmentSlot.start_time s) t); [lia | reflexivity].
Qed.

Section Pipeline.
Variable W : World.

Lemma with_limit_same search :
  with_limit search (SearchRequest.limit search) = search.
Proof. destruct search; reflexivity. Qed.

(** The mock connectors read only the coordinates of the request. *)
Lemma connector_square_ext search search' :
  SearchRequest.lat search = SearchRequest.lat search' ->
  SearchRequest.lng search = SearchRequest.lng search' ->
  connector_square_haircuts W search = connector_square_haircuts W search'.
Proof.
  intros Hlat Hlng. unfold connector_square_haircuts.
  rewrite Hlat, Hlng. reflexivity.
Qed.

Lemma connector_vagaro_ext search search' :
  SearchRequest.lat search = SearchRequest.lat search' ->
  SearchRequest.lng search = SearchRequest.lng search' ->
  connector_vagaro_haircuts W search = connector_vagaro_haircuts W search'.
Proof.
  intros Hlat Hlng. unfold connector_vagaro_haircuts.
  rewrite Hlat, Hlng. reflexivity.
Qed.

Lemma connector_square_with_limit search limit :
  connector_square_haircuts W (with_limit search limit)
  = connector_square_haircuts W search.
Proof. apply connector_square_ext; reflexivity. Qed.

Lemma connector_vagaro_with_limit search limit :
  connector_vagaro_haircuts W (with_limit search limit)
  = connector_vagaro_haircuts W search.
Proof. apply connector_vagaro_ext; reflexivity. Qed.

Lemma keep_slot_with_limit search limit :
  keep_slot (with_limit search limit) = keep_slot search.
Proof. reflexivity. Qed.

Lemma filter_slots_with_limit search limit pw raw :
  filter_slots (with_limit search limit) pw raw = filter_slots search pw raw.
Proof.
  induction raw as [| s raw IH]; cbn [filter_slots]; [reflexivity |].
  now rewrite keep_slot_with_limit, IH.
Qed.

Lemma compute_score_with_limit s search limit :
  compute_score W s (with_limit search limit) = compute_score W s search.
Proof. reflexivity. Qed.

Lemma normalize_slots_with_limit slots search limit :
  normalize_slots W slots (with_limit search limit)
  = normalize_slots W slots search.
Proof.
  induction slots as [| s slots IH]; [reflexivity |].
  rewrite !normalize_slots_cons, IH, compute_score_with_limit. reflexivity.
Qed.

Lemma normalize_slots_built search slots :
  forall st,
  exists ns,
    normalize_slots W slots search st
    = (Ok ns, after_clock_reads (List.length slots) st) /\
    Forall2 built slots ns.
Proof.
  induction slots as [| s slots IH]; intros st.
  - exists []. cbn [normalize_slots List.length].
    rewrite after_clock_reads_0. split; [reflexivity | constructor].
  - destruct (IH (after_clock_reads 1 st)) as (ns & Erun & Hbuilt).
    pose proof (compute_score_run W s search st) as Ec.
    set (v := round4 _) in Ec.
    exists (normalized_with s v :: ns). split.
    + rewrite normalize_slots_cons. unfold bind at 1. rewrite Ec.
      unfold bind at 1. rewrite Erun. unfold ret, v.
      rewrite float_or_round4, after_clock_reads_S. reflexivity.
    + constructor; [exists v; reflexivity | exact Hbuilt].
Qed.

Lemma built_copied_from s n : built s n -> copied_from s n.
Proof. intros [v ->]. apply copied_from_normalized_with. Qed.

(** One run of the pipeline, stage by stage: the phrase is resolved, the
    two connectors run, the filter loop either raises or returns the slots
    it keeps, and these are normalised, sorted and sliced.  Only the slice
    looks at [limit]. *)
Lemma search_run search st :
  exists pw st1 sq vg,
    parse_when_text W (SearchRequest.when search) st = (Ok pw, st1) /\
    connector_square_haircuts W search st1
    = (Ok sq, after_reading_and_draws 90 st1) /\
    connector_vagaro_haircuts W search (after_reading_and_draws 90 st1)
    = (Ok vg, after_reading_and_draws 90 (after_reading_and_draws 90 st1)) /\
    Forall2 (listed square_listing
               (replace_to_hour (utcnow_at W (clock_calls st1))
                + timedelta_hours 1) search) (seq 0 10) sq /\
    Forall2 (listed vagaro_listing
               (replace_to_hour (utcnow_at W (S (clock_calls st1)))
                + timedelta_hours 2) search) (seq 0 10) vg /\
    (forall filtered,
        filter_slots search pw (sq ++ vg) = Ok filtered ->
        exists ns st',
          Forall2 built filtered ns /\
          forall limit,
            search_haircuts_internal W (with_limit search limit) st
            = (Ok (slice_to (sort_by_key sort_key ns) limit), st')) /\
    (forall e,
        filter_slots search pw (sq ++ vg) = Raise e ->
        forall limit,
          search_haircuts_internal W (with_limit search limit) st
          = (Raise e,
             after_reading_and_draws 90 (after_reading_and_draws 90 st1))).
Proof.
  destruct (succeeds_parse_when_text W (SearchRequest.when search) st)
    as (pw & st1 & E1).
  destruct (connector_square_run W search st1) as (sq & E2 & Hsq).
  destruct (connector_vagaro_run W search (after_reading_and_draws 90 st1))
    as (vg & E3 & Hvg).
  exists pw, st1, sq, vg.
  split; [exact E1 |]. split; [exact E2 |]. split; [exact E3 |].
  split; [exact Hsq |]. split; [exact Hvg |].
  assert (Hhead :
            forall limit,
              search_haircuts_internal W (with_limit search limit) st
              = bind (lift (filter_slots search pw (sq ++ vg)))
                  (fun filtered =>
                     normalized <- normalize_slots W filtered search ;;
                     ret (slice_to (sort_by_key sort_key normalized) limit))
                  (after_reading_and_draws 90
                     (after_reading_and_draws 90 st1))).
  { intros limit. unfold search_haircuts_internal.
    change (SearchRequest.when (with_limit search limit))
      with (SearchRequest.when search).
    change (SearchRequest.limit (with_limit search limit)) with limit.
    unfold bind at 1. rewrite E1.
    rewrite connector_square_with_limit. unfold bind at 1. rewrite E2.
    rewrite connector_vagaro_with_limit. unfold bind at 1. rewrite E3.
    rewrite filter_slots_with_limit.
    unfold bind at 1. unfold bind at 2.
    destruct (lift (filter_slots search pw (sq ++ vg))
                (after_reading_and_draws 90 (after_reading_and_draws 90 st1)))
      as [[filtered | e] st3]; [| reflexivity].
    now rewrite normalize_slots_with_limit. }
  split.
  - intros filtered Ef.
    destruct (normalize_slots_built search filtered
                (after_reading_and_draws 90 (after_reading_and_draws 90 st1)))
      as (ns & E4 & Hns).
    exists ns. eexists. split; [exact Hns |].
    intros limit. rewrite Hhead. unfold bind at 1, lift. rewrite Ef.
    unfold bind. rewrite E4. reflexivity.
  - intros e Ef limit. rewrite Hhead. unfold bind at 1, lift. rewrite Ef.
    reflexivity.
Qed.

Lemma search_run_result search st :
  exists pw st1 sq vg,
    parse_when_text W (SearchRequest.when search) st = (Ok pw, st1) /\
    Forall2 (listed square_listing
               (replace_to_hour (utcnow_at W (clock_calls st1))
                + timedelta_hours 1) search) (seq 0 10) sq /\
    Forall2 (listed vagaro_listing
               (replace_to_hour (utcnow_at W (S (clock_calls st1)))
                + timedelta_hours 2) search) (seq 0 10) vg /\
    (forall filtered,
        filter_slots search pw (sq ++ vg) = Ok filtered ->
        exists ns st',
          Forall2 built filtered ns /\
          search_haircuts_internal W search st
          = (Ok (slice_to (sort_by_key sort_key ns)
                          (SearchRequest.limit search)), st')) /\
    (forall e,
        filter_slots search pw (sq ++ vg) = Raise e ->
        search_haircuts_internal W search st
        = (Raise e,
           after_reading_and_draws 90 (after_reading_and_draws 90 st1))).
Proof.
  destruct (search_run search st)
    as (pw & st1 & sq & vg & E1 & _ & _ & Hsq & Hvg & Hok & Hraise).
  exists pw, st1, sq, vg.
  split; [exact E1 |]. split; [exact Hsq |]. split; [exact Hvg |]. split.
  - intros filtered Ef. destruct (Hok filtered Ef) as (ns & st' & Hns & Hrun).
    exists ns, st'. split; [exact Hns |].
    rewrite <- (Hrun (SearchRequest.limit search)), with_limit_same.
    reflexivity.
  - intros e Ef.
    rewrite <- (Hraise e Ef (SearchRequest.limit search)), with_limit_same.
    reflexivity.
Qed.

Lemma ranked_length {search pw base1 base2 sq vg ns} limit :
  Forall2 (listed square_listing base1 search) (seq 0 10) sq ->
  Forall2 (listed vagaro_listing base2 search) (seq 0 10) vg ->
  Forall2 built (filter (kept search pw) (sq ++ vg)) ns ->
  (List.length (slice_to (sort_by_key sort_key ns) limit) <= 20)%nat.
Proof.
  intros Hsq Hvg Hns.
  assert (Hlen : (List.length (sort_by_key sort_key ns) <= 20)%nat).
  { rewrite <- (Permutation_length (sort_by_key_perm sort_key ns)).
    apply Forall2_length in Hns. rewrite <- Hns.
    pose proof (filter_length_le (kept search pw) (sq ++ vg)) as Hle.
    rewrite length_app, (Forall2_length_seq _ _ _ _ Hsq),
      (Forall2_length_seq _ _ _ _ Hvg) in Hle.
    lia. }
  unfold slice_to.
  destruct (limit <? 0); rewrite length_firstn; lia.
Qed.

(** What holds of the sorted and sliced normalisation of the kept slots
    holds of every list a search returns; a search returns whenever the
    bound of its time filter is not aware, and fails with [TypeError]
    only. *)
Lemma search_outcome (P : option moment -> list NormalizedSlot.t -> Prop)
  search st :
  (forall pw base1 base2 sq vg ns,
      Forall2 (listed square_listing base1 search) (seq 0 10) sq ->
      Forall2 (listed vagaro_listing base2 search) (seq 0 10) vg ->
      Forall2 built (filter (kept search pw) (sq ++ vg)) ns ->
      P pw (slice_to (sort_by_key sort_key ns)
              (SearchRequest.limit search))) ->
  exists pw st1,
    parse_when_text W (SearchRequest.when search) st = (Ok pw, st1) /\
    (aware_bound pw = false ->
     exists results st',
       search_haircuts_internal W search st = (Ok results, st') /\
       P pw results) /\
    (forall results st',
        search_haircuts_internal W search st = (Ok results, st') ->
        P pw results) /\
    (forall e st',
        search_haircuts_internal W search st = (Raise e, st') ->
        e = TypeError /\ aware_bound pw = true /\
        st' = after_reading_and_draws 90 (after_reading_and_draws 90 st1)).
Proof.
  intros HP.
  destruct (search_run_result search st)
    as (pw & st1 & sq & vg & E1 & Hsq & Hvg & Hok & Hraise).
  exists pw, st1. split; [exact E1 |].
  destruct (filter_slots search pw (sq ++ vg)) as [filtered | e] eqn:Ef.
  - destruct (Hok filtered eq_refl) as (ns & st' & Hns & Hrun).
    rewrite (filter_slots_kept _ _ _ _ Ef) in Hns.
    pose proof (HP _ _ _ _ _ _ Hsq Hvg Hns) as Hres.
    split; [| split].
    + intros _. eexists. exists st'. split; [exact Hrun | exact Hres].
    + intros results st'' H. rewrite Hrun in H.
      apply (f_equal fst) in H. cbn [fst] in H.
      assert (Hr : slice_to (sort_by_key sort_key ns)
                     (SearchRequest.limit search) = results)
        by congruence.
      rewrite <- Hr. exact Hres.
    + intros e' st'' H. rewrite Hrun in H.
      apply (f_equal fst) in H. discriminate H.
  - pose proof (Hraise e eq_refl) as Hrun.
    destruct (filter_slots_raises _ _ _ _ Ef) as [-> Haware].
    split; [| split].
    + intros H. congruence.
    + intros results st'' H. rewrite Hrun in H.
      apply (f_equal fst) in H. discriminate H.
    + intros e' st'' H. rewrite Hrun in H.
      pose proof (f_equal fst H) as H1. pose proof (f_equal snd H) as H2.
      cbn [fst snd] in H1, H2.
      split; [congruence | split; [exact Haware | congruence]].
Qed.

End Pipeline.

(* ------------------------------------------------------------------ *)
(** ** Properties of the aggregation pipeline *)

(** C1: every list that [search_haircuts_internal] returns is ranked:
    scores never increase along the list, among equal scores the prices
    never decrease, and among equal score and price the start times never
    decrease ([rank_le] holds between every earlier and every later
    element).  The search returns whenever the time phrase does not resolve
    to an aware datetime, and its only failure is the [TypeError] of the
    filter loop on an aware bound. *)
Theorem search_results_ranked (W : World) (search : SearchRequest.t)
  (st : Calls) :
  exists pw st1,
    parse_when_text W (SearchRequest.when search) st = (Ok pw, st1) /\
    (aware_bound pw = false ->
     exists results st',
       search_haircuts_internal W search st = (Ok results, st') /\
       StronglySorted rank_le results) /\
    (forall results st',
        search_haircuts_internal W search st = (Ok results, st') ->
        StronglySorted rank_le results) /\
    (forall e st',
        search_haircuts_internal W search st = (Raise e, st') ->
        e = TypeError /\ aware_bound pw = true).
Proof.
  destruct (search_outcome W (fun _ => StronglySorted rank_le) search st)
    as (pw & st1 & E1 & Hreturns & Hall & Hraise).
  { intros pw base1 base2 sq vg ns _ _ _.
    apply slice_to_sorted, sort_by_key_sorted. }
  exists pw, st1.
  split; [exact E1 |]. split; [exact Hreturns |]. split; [exact Hall |].
  intros e st' H. destruct (Hraise e st' H) as (He & Haware & _). auto.
Qed.



(** C8: the score stored in the i-th normalized slot is the value that
    [compute_score] returns for the i-th raw slot and the request, at the
    call the loop makes for that slot; defaulting with [or 0.0] never
    changes it. *)
Theorem normalized_score_is_computed (W : World)
  (slots : list AppointmentSlot.t) (search : SearchRequest.t) (st : Calls) :
  exists normalized,
    normalize_slots W slots search st
    = (Ok normalized, after_clock_reads (List.length slots) st) /\
    forall i s, nth_error slots i = Some s ->
      exists n, nth_error normalized i = Some n /\
        compute_score W s search (after_clock_reads i st)
        = (Ok (NormalizedSlot.score n), after_clock_reads (S i) st).
Proof.
  destruct (normalize_slots_run W search slots st) as (ns & Hrun & _ & Hs).
  exists ns. split; assumption.
Qed.

(** C10: [normalize_slots] returns one normalized slot per raw slot, in the
    same order, and each one carries the provider, location name, service
    name, stylist name, start time, duration, price, currency, latitude,
    longitude and booking URL of the raw slot it comes from. *)
Theorem normalize_slots_copies_fields (W : World)
  (slots : list AppointmentSlot.t) (search : SearchRequest.t) (st : Calls) :
  exists normalized st',
    normalize_slots W slots search st = (Ok normalized, st') /\
    List.length normalized = List.length slots /\
    Forall2 copied_from slots normalized.
Proof.
  destruct (normalize_slots_run W search slots st) as (ns & Hrun & Hc & _).
  exists ns. eexists. split; [exact Hrun |]. split; [| exact Hc].
  symmetry. eapply Forall2_length, Hc.
Qed.



(* ------------------------------------------------------------------ *)
(** ** Properties of the scoring function *)

(** C5 (amended): the earliness term is 0.2 exactly when the slot starts
    before the clock reading plus 24 hours, and 0 otherwise; there is no
    lower bound on the start time.  The reading is the one [compute_score]
    takes when it is called. *)
Theorem early_bonus_before_deadline (slot : AppointmentSlot.t)
  (now : datetime) :
  (early_bonus slot now = (2 # 10)%Q <->
   AppointmentSlot.start_time slot < now + timedelta_hours 24) /\
  (early_bonus slot now = 0%Q <->
   now + timedelta_hours 24 <= AppointmentSlot.start_time slot) /\
  (forall W search st,
     now = utcnow_at W (clock_calls st) ->
     compute_score W slot search st
     = (Ok (round4 (price_score slot + early_bonus slot now
                    + (5 # 10) * service_match W slot search
                    + (3 # 10) * stylist_match slot search
                    + (5 # 10) * proximity slot search)),
        after_clock_reads 1 st)).
Proof.
  split; [| split].
  - unfold early_bonus.
    destruct (Z.ltb_spec (AppointmentSlot.start_time slot)
                         (now + timedelta_hours 24)) as [H | H];
      split; intros; try lia; try discriminate; reflexivity.
  - unfold early_bonus.
    destruct (Z.ltb_spec (AppointmentSlot.start_time slot)
                         (now + timedelta_hours 24)) as [H | H];
      split; intros; try lia; try discriminate; reflexivity.
  - intros W search st ->. apply compute_score_run.
Qed.

Lemma early_bonus_before_deadline_witness :
  early_bonus Example.origin_slot Example.now = (2 # 10)%Q /\
  compute_score Example.world Example.origin_slot (Example.request 25)
    Example.start
  = (Ok (9 # 10)%Q, after_clock_reads 1 Example.start).
Proof.
  destruct (early_bonus_before_deadline Example.origin_slot Example.now)
    as (Hyes & _ & Hrun).
  split.
  - apply Hyes. vm_compute. reflexivity.
  - rewrite (Hrun Example.world (Example.request 25) Example.start
               eq_refl).
    vm_compute. reflexivity.
Defined.

(** C5 fails as stated: a slot that started one hour before the current
    instant receives the 0.2 bonus (its score is 0.7 for the price plus
    0.2). *)
Lemma past_slot_gets_early_bonus :
  AppointmentSlot.start_time Example.past_slot < Example.now /\
  early_bonus Example.past_slot Example.now = (2 # 10)%Q /\
  compute_score Example.world Example.past_slot (Example.request 25)
    Example.start
  = (Ok (9 # 10)%Q, after_clock_reads 1 Example.start).
Proof.
  split; [vm_compute; reflexivity |].
  split; vm_compute; reflexivity.
Qed.

(** The proximity term where the code computes it: the request has both
    coordinates and both coordinates of the slot are present and not 0.0. *)
Lemma proximity_present_nonzero slot search lat lng slat slng :
  SearchRequest.lat search = Some lat ->
  SearchRequest.lng search = Some lng ->
  AppointmentSlot.latitude slot = Some slat ->
  AppointmentSlot.longitude slot = Some slng ->
  ~ (slat == 0)%Q -> ~ (slng == 0)%Q ->
  proximity slot search
  = py_max 0 (1 - (Qabs (slat - lat) + Qabs (slng - lng)) / (1 # 10))%Q.
Proof.
  intros Hlat Hlng Hslat Hslng Ha Hb. unfold proximity, float_truthy.
  rewrite Hlat, Hlng, Hslat, Hslng.
  destruct (Qeq_bool slat 0) eqn:Ea;
    [apply Qeq_bool_iff in Ea; contradiction |].
  destruct (Qeq_bool slng 0) eqn:Eb;
    [apply Qeq_bool_iff in Eb; contradiction |].
  reflexivity.
Qed.

Lemma proximity_absent slot search :
  SearchRequest.lat search = None \/ SearchRequest.lng search = None \/
  AppointmentSlot.latitude slot = None \/
  AppointmentSlot.longitude slot = None ->
  proximity slot search = 0%Q.
Proof.
  unfold proximity, float_truthy.
  intros [H | [H | [H | H]]]; rewrite H;
    repeat match goal with
           | |- context [match ?x with _ => _ end] => destruct x
           end; reflexivity.
Qed.

(** C6 at the failing input: request and slot both at latitude 0.0 and
    longitude 0.0.  The formula of the claim gives max(0, 1 - 0/0.1) = 1 for
    the distance factor, hence a term of 0.5; the code takes the zero
    coordinates of the slot for missing ones and the factor is 0. *)
Theorem proximity_zero_coordinate_slot :
  SearchRequest.lat Example.origin_request = Some 0%Q /\
  SearchRequest.lng Example.origin_request = Some 0%Q /\
  AppointmentSlot.latitude Example.origin_slot = Some 0%Q /\
  AppointmentSlot.longitude Example.origin_slot = Some 0%Q /\
  proximity Example.origin_slot Example.origin_request = 0%Q /\
  py_max 0 (1 - (Qabs (0 - 0) + Qabs (0 - 0)) / (1 # 10))%Q = 1%Q.
Proof. repeat split. Qed.

(* ------------------------------------------------------------------ *)
(** ** Properties of the temporal phrase parser *)

Lemma mem_str_app s l1 l2 :
  mem_str s (l1 ++ l2) = mem_str s l1 || mem_str s l2.
Proof. apply existsb_app. Qed.

(** C7: [parse_when_text] returns a value for every input and from every
    state.  Absent or empty input gives [None] without reading the clock; a
    phrase of the fixed vocabulary gives a timestamp; for any other phrase
    the result is the timestamp of the fallback parser, or [None] when that
    parser raises. *)
Theorem parse_when_text_total (W : World) (when_text : option string)
  (st : Calls) :
  exists r st',
    parse_when_text W when_text st = (Ok r, st') /\
    (when_text = None \/ when_text = Some "" -> r = None /\ st' = st) /\
    (forall text,
        when_text = Some text -> text <> "" ->
        mem_str (PyStr.strip_ws (PyStr.lower text))
                ["now"; "asap"; "today"; "tomorrow"] = true ->
        exists t, r = Some (Naive t)) /\
    (forall text,
        when_text = Some text -> text <> "" ->
        mem_str (PyStr.strip_ws (PyStr.lower text))
                ["now"; "asap"; "today"; "tomorrow"] = false ->
        match dtparse_parse W text (utcnow_at W (clock_calls st)) with
        | Ok t => r = Some t
        | Raise _ => r = None
        end).
Proof.
  destruct when_text as [[| c s] |].
  - exists None, st. repeat split; intros; congruence.
  - cbv beta iota delta [parse_when_text].
    remember (PyStr.strip_ws (PyStr.lower (String c s))) as text eqn:Etext.
    change ["now"; "asap"; "today"; "tomorrow"]
      with (["now"; "asap"; "today"] ++ ["tomorrow"])%list.
    unfold try_except, bind, utcnow, ret, lift.
    destruct (mem_str text ["now"; "asap"; "today"]) eqn:E1;
      [| destruct (mem_str text ["tomorrow"]) eqn:E2;
         [| destruct (dtparse_parse W (String c s)
                        (utcnow_at W (clock_calls st))) as [t | e] eqn:E3]];
      eexists; eexists; (split; [reflexivity |]);
      (split; [intros [H | H]; discriminate H |]);
      split; intros text' Htext Hne Hmem;
      injection Htext as <-; rewrite <- Etext, mem_str_app, E1 in Hmem;
      try rewrite E2 in Hmem; try discriminate Hmem;
      try rewrite E3; eauto.
  - exists None, st. repeat split; intros; congruence.
Qed.

(** The parser at work: an unknown phrase on which the fallback parser
    raises gives [None]; [tomorrow] gives nine o'clock of the next day. *)
Lemma parse_when_text_examples :
  fst (parse_when_text Example.world (Some "whenever") Example.start)
  = Ok None /\
  fst (parse_when_text Example.world (Some " Tomorrow ") Example.start)
  = Ok (Some (Naive 1735808400000000)).
Proof. split; vm_compute; reflexivity. Qed.

(* ------------------------------------------------------------------ *)
(** ** Properties of the query interpreter *)

(** C2 at the failing input: the query ends with the substring [with ], so
    nothing follows it and indexing the empty list of tokens raises
    [IndexError]. *)
Theorem conversational_to_search_raises :
  PyStr.split1 "with " (PyStr.lower "fade with ") = ["fade "; ""] /\
  PyStr.split "" = [] /\
  conversational_to_search (Some "fade with ") = Raise IndexError.
Proof. repeat split. Qed.

(** A second failure path: a token made of a superscript two passes
    [isdigit] and is refused by [int]. *)
Lemma conversational_to_search_superscript :
  let token := String (ascii_of_N 178) EmptyString in
  PyStr.isdigit token = true /\
  conversational_to_search (Some token) = Raise ValueError.
Proof. split; vm_compute; reflexivity. Qed.

Section Strings.

Lemma length_app_str (a b : string) :
  String.length (a ++ b) = (String.length a + String.length b)%nat.
Proof. induction a as [| c a IH]; cbn; [reflexivity | now rewrite IH]. Qed.

Lemma app_assoc_str (a b c : string) : (a ++ b) ++ c = a ++ (b ++ c).
Proof. induction a as [| d a IH]; cbn; [reflexivity | now rewrite IH]. Qed.

Lemma prefix_nil (s : string) : prefix "" s = true.
Proof. destruct s; reflexivity. Qed.

Lemma prefix_app_self (sep rest : string) : prefix sep (sep ++ rest) = true.
Proof.
  induction sep as [| c sep IH]; cbn; [apply prefix_nil |].
  destruct (ascii_dec c c); [exact IH | congruence].
Qed.

(** Whether [s] starts a string is decided by the first [length s]
    characters of it. *)
Lemma prefix_app_long (s a b : string) :
  (String.length s <= String.length a)%nat ->
  prefix s (a ++ b) = prefix s a.
Proof.
  revert a. induction s as [| c s IH]; intros a Hlen.
  - now rewrite !prefix_nil.
  - destruct a as [| d a]; cbn in Hlen; [lia |]. cbn.
    destruct (ascii_dec c d); [apply IH; lia | reflexivity].
Qed.

Lemma drop_app (sep rest : string) :
  PyStr.drop (String.length sep) (sep ++ rest) = rest.
Proof. induction sep as [| c sep IH]; cbn; [reflexivity | exact IH]. Qed.

Lemma contains_eq (sub s : string) :
  PyStr.contains sub s =
  prefix sub s ||
  match s with
  | EmptyString => false
  | String _ s' => PyStr.contains sub s'
  end.
Proof. destruct s; reflexivity. Qed.

Lemma split1_eq (sep s : string) :
  PyStr.split1 sep s =
  if prefix sep s then [EmptyString; PyStr.drop (String.length sep) s]
  else
    match s with
    | EmptyString => [EmptyString]
    | String c s' =>
        match PyStr.split1 sep s' with
        | a :: rest => String c a :: rest
        | [] => []
        end
    end.
Proof. destruct s; reflexivity. Qed.

Lemma contains_at (sep pre rest : string) :
  PyStr.contains sep (pre ++ sep ++ rest) = true.
Proof.
  induction pre as [| d pre IH].
  - cbn [append]. now rewrite contains_eq, prefix_app_self.
  - cbn [append]. rewrite contains_eq, IH. apply orb_true_r.
Qed.

(** [split(sep, 1)] cuts at the first occurrence of [sep]: no occurrence
    starts inside [pre]. *)
Lemma split1_at_first (sep0 : string) (c : ascii) (pre rest : string) :
  PyStr.contains (sep0 ++ String c "") (pre ++ sep0) = false ->
  PyStr.split1 (sep0 ++ String c "") (pre ++ (sep0 ++ String c "") ++ rest)
  = [pre; rest].
Proof.
  set (sep := sep0 ++ String c "").
  induction pre as [| d pre IH]; intros Hfirst.
  - cbn [append]. now rewrite split1_eq, prefix_app_self, drop_app.
  - rewrite contains_eq in Hfirst. cbn [append] in Hfirst.
    apply orb_false_iff in Hfirst as [Hhere Hlater].
    rewrite split1_eq.
    replace (String d pre ++ sep ++ rest)
      with ((String d pre ++ sep0) ++ (String c "" ++ rest)).
    2:{ unfold sep. now rewrite !app_assoc_str. }
    rewrite prefix_app_long.
    2:{ unfold sep. cbn [append String.length].
        rewrite !length_app_str. cbn. lia. }
    cbn [append]. rewrite Hhere.
    replace ((pre ++ sep0) ++ String c rest) with (pre ++ sep ++ rest).
    2:{ unfold sep. now rewrite !app_assoc_str. }
    now rewrite (IH Hlater).
Qed.

Lemma forallb_str_app p (a b : string) :
  PyStr.forallb_str p (a ++ b)
  = PyStr.forallb_str p a && PyStr.forallb_str p b.
Proof.
  induction a as [| c a IH]; cbn; [reflexivity |].
  now rewrite IH, andb_assoc.
Qed.

(** The tokens of [split] are made of characters of the string and are no
    longer than it. *)
Lemma split_from_tokens p (s : string) :
  PyStr.forallb_str p s = true ->
  forall cur,
    match cur with Some t => PyStr.forallb_str p t = true | None => True end ->
    Forall (fun t => PyStr.forallb_str p t = true /\
                     (String.length t
                      <= match cur with
                         | Some t0 => String.length t0
                         | None => 0
                         end + String.length s)%nat)
           (PyStr.split_from cur s).
Proof.
  induction s as [| c s IH]; intros Hs cur Hcur.
  - destruct cur as [t |]; cbn; constructor; auto.
    split; [exact Hcur | lia].
  - cbn [PyStr.forallb_str] in Hs. apply andb_true_iff in Hs as [Hc Hs].
    cbn [PyStr.split_from String.length].
    destruct (PyStr.isspace_char c).
    + pose proof (IH Hs None I) as Hrest. cbn beta iota in Hrest.
      assert (Hrest' :
                Forall (fun t => PyStr.forallb_str p t = true /\
                                 (String.length t
                                  <= match cur with
                                     | Some t0 => String.length t0
                                     | None => 0
                                     end + S (String.length s))%nat)
                       (PyStr.split_from None s)).
      { eapply Forall_impl; [| exact Hrest].
        intros a [Ha Hlen]. split; [exact Ha | lia]. }
      destruct cur as [t |]; [constructor |]; try exact Hrest'.
      split; [exact Hcur | lia].
    + destruct cur as [t |].
      * assert (Hnew : PyStr.forallb_str p (t ++ String c "") = true).
        { rewrite forallb_str_app. cbn. now rewrite Hcur, Hc. }
        pose proof (IH Hs (Some (t ++ String c "")) Hnew) as Hrest.
        cbn beta iota in Hrest. rewrite length_app_str in Hrest.
        cbn [String.length] in Hrest.
        eapply Forall_impl; [| exact Hrest].
        intros a [Ha Hlen]. split; [exact Ha | lia].
      * assert (Hnew : PyStr.forallb_str p ("" ++ String c "") = true).
        { cbn. now rewrite Hc. }
        pose proof (IH Hs (Some ("" ++ String c "")) Hnew) as Hrest.
        cbn beta iota in Hrest. cbn [append String.length] in Hrest.
        eapply Forall_impl; [| exact Hrest].
        intros a [Ha Hlen]. split; [exact Ha | lia].
Qed.

Lemma replace_char_removed p (c : ascii) (s : string) :
  PyStr.forallb_str p s = true ->
  PyStr.forallb_str p (PyStr.replace_char c "" s) = true /\
  (String.length (PyStr.replace_char c "" s) <= String.length s)%nat.
Proof.
  induction s as [| d s IH]; intros Hs; [split; [reflexivity | cbn; lia] |].
  cbn [PyStr.forallb_str] in Hs. apply andb_true_iff in Hs as [Hd Hs].
  destruct (IH Hs) as [IH1 IH2]. cbn [PyStr.replace_char].
  destruct (Ascii.eqb d c); cbn.
  - split; [exact IH1 | lia].
  - rewrite Hd, IH1. split; [reflexivity | lia].
Qed.

Lemma lower_char_plain (c : ascii) :
  implb (PyStr.isdigit_char c) (PyStr.isdecimal_char c) = true ->
  implb (PyStr.isdigit_char (PyStr.lower_char c))
        (PyStr.isdecimal_char (PyStr.lower_char c)) = true.
Proof.
  destruct c as [[] [] [] [] [] [] [] []]; vm_compute; intros H; exact H.
Qed.

Lemma lower_plain (s : string) :
  plain_digits s = true ->
  plain_digits (PyStr.lower s) = true /\
  String.length (PyStr.lower s) = String.length s.
Proof.
  unfold plain_digits.
  induction s as [| c s IH]; intros Hs; [split; reflexivity |].
  cbn [PyStr.forallb_str] in Hs. apply andb_true_iff in Hs as [Hc Hs].
  destruct (IH Hs) as [IH1 IH2].
  cbn [PyStr.lower PyStr.forallb_str String.length].
  rewrite (lower_char_plain c Hc), IH1, IH2. split; reflexivity.
Qed.

End Strings.

Lemma digit_token_decimal (t : string) :
  PyStr.forallb_str PyStr.isdigit_char t = true ->
  plain_digits t = true ->
  PyStr.forallb_str PyStr.isdecimal_char t = true.
Proof.
  unfold plain_digits.
  induction t as [| c t IH]; cbn [PyStr.forallb_str]; [reflexivity |].
  intros H1 H2.
  apply andb_true_iff in H1 as [Hc H1]. apply andb_true_iff in H2 as [Hi H2].
  rewrite Hc in Hi. cbn [implb] in Hi. now rewrite Hi, (IH H1 H2).
Qed.

(** The budget loop returns when no token holds a superscript digit and no
    token is longer than [int] accepts. *)
Lemma scan_budget_returns (tokens : list string) :
  Forall (fun t => plain_digits t = true /\
                   (String.length t <= int_max_str_digits)%nat) tokens ->
  forall budget, exists b, scan_budget budget tokens = Ok b.
Proof.
  induction 1 as [| t tokens [Hplain Hlen] _ IH]; intros budget;
    cbn [scan_budget]; [eexists; reflexivity |].
  destruct (PyStr.isdigit t) eqn:Hdigit; [| apply IH].
  destruct t as [| c t]; [discriminate Hdigit |].
  unfold PyStr.isdigit in Hdigit. unfold int_of_str.
  rewrite (digit_token_decimal _ Hdigit Hplain).
  rewrite (proj2 (Nat.leb_le _ _) Hlen).
  cbn [andb rbind]. apply IH.
Qed.

Lemma query_tokens_plain (query : string) :
  plain_digits query = true ->
  (String.length query <= int_max_str_digits)%nat ->
  Forall (fun t => plain_digits t = true /\
                   (String.length t <= int_max_str_digits)%nat)
         (PyStr.split
            (PyStr.replace_char "," ""
               (PyStr.replace_char "$" "" (PyStr.lower query)))).
Proof.
  intros Hplain Hlen.
  destruct (lower_plain query Hplain) as [H0 L0].
  destruct (replace_char_removed _ "$" _ H0) as [H1 L1].
  destruct (replace_char_removed _ "," _ H1) as [H2 L2].
  eapply Forall_impl; [| exact (split_from_tokens _ _ H2 None I)].
  cbn beta iota. intros t [Ht Lt]. split; [exact Ht | lia].
Qed.

Lemma int_of_str_raises (t : string) (e : exn) :
  int_of_str t = Raise e -> e = ValueError.
Proof.
  unfold int_of_str. destruct t as [| c t].
  - intros H. now injection H as <-.
  - destruct (PyStr.forallb_str PyStr.isdecimal_char (String c t)
              && (String.length (String c t) <=? int_max_str_digits)%nat);
      [discriminate | intros H; now injection H as <-].
Qed.

(** The budget loop returns exactly when [int] accepts every token that
    passes [isdigit]; otherwise it raises [ValueError]. *)
Lemma scan_budget_converts (tokens : list string) :
  forall budget,
    if forallb
         (fun token =>
            negb (PyStr.isdigit token)
            || match int_of_str token with Ok _ => true | Raise _ => false end)
         tokens
    then exists b, scan_budget budget tokens = Ok b
    else scan_budget budget tokens = Raise ValueError.
Proof.
  induction tokens as [| t tokens IH]; intros budget;
    cbn [forallb scan_budget]; [eexists; reflexivity |].
  destruct (PyStr.isdigit t); cbn [negb orb andb]; [| apply IH].
  destruct (int_of_str t) as [value | e] eqn:Ev; cbn [rbind andb].
  - apply IH.
  - now rewrite (int_of_str_raises _ _ Ev).
Qed.

Lemma plain_digits_convert (query : string) :
  plain_digits query = true ->
  (String.length query <= int_max_str_digits)%nat ->
  digits_convert query = true.
Proof.
  intros Hplain Hlen. unfold digits_convert. apply forallb_forall.
  intros t Ht.
  pose proof (query_tokens_plain query Hplain Hlen) as Htokens.
  rewrite Forall_forall in Htokens. destruct (Htokens t Ht) as [Hp Hl].
  destruct (PyStr.isdigit t) eqn:Hdigit; [| reflexivity].
  destruct t as [| c t]; [discriminate Hdigit |].
  unfold PyStr.isdigit in Hdigit. unfold int_of_str.
  rewrite (digit_token_decimal _ Hdigit Hp).
  now rewrite (proj2 (Nat.leb_le _ _) Hl).
Qed.

(** C9 (amended): the query is lower-cased first; when [with ] occurs in
    it, first after [pre], and [int] accepts every token of the query that
    passes [isdigit], the stylist hint is the first token of what follows
    with the characters [.], [,] and [!] removed from both of its ends, and
    the call raises [IndexError] when no token follows.  When [int] refuses
    such a token the call raises [ValueError]. *)
Theorem stylist_is_stripped_token (query pre rest : string) :
  PyStr.lower query = pre ++ "with " ++ rest ->
  PyStr.contains "with " (pre ++ "with") = false ->
  (digits_convert query = true ->
   match PyStr.split rest with
   | token :: _ =>
       exists request,
         conversational_to_search (Some query) = Ok request /\
         SearchRequest.stylist request = Some (PyStr.strip ".,!" token)
   | [] => conversational_to_search (Some query) = Raise IndexError
   end) /\
  (digits_convert query = false ->
   conversational_to_search (Some query) = Raise ValueError).
Proof.
  intros Hlower Hfirst.
  assert (Hcut : PyStr.split1 "with " (pre ++ "with " ++ rest) = [pre; rest])
    by exact (split1_at_first "with" " " pre rest Hfirst).
  destruct query as [| c q].
  { destruct pre; discriminate Hlower. }
  pose proof (scan_budget_converts
                (PyStr.split
                   (PyStr.replace_char "," ""
                      (PyStr.replace_char "$" ""
                         (PyStr.lower (String c q))))) None) as Hscan.
  fold (digits_convert (String c q)) in Hscan.
  split; intros Hdigits; rewrite Hdigits in Hscan;
    cbv beta iota zeta delta [conversational_to_search].
  - destruct Hscan as [budget Hbudget].
    rewrite Hbudget. cbv beta iota delta [rbind].
    rewrite Hlower, (contains_at "with " pre rest), Hcut.
    cbv beta iota delta [index nth_error].
    destruct (PyStr.split rest) as [| token tokens]; [reflexivity |].
    eexists. split; reflexivity.
  - rewrite Hscan. reflexivity.
Qed.

Lemma stylist_is_stripped_token_witness :
  let query := "Cut with .Bob" ++ String (ascii_of_N 178) "!, today" in
  digits_convert query = true /\
  plain_digits query = false /\
  exists request,
    conversational_to_search (Some query) = Ok request /\
    SearchRequest.stylist request
    = Some ("bob" ++ String (ascii_of_N 178) "").
Proof.
  cbv zeta. split; [reflexivity |]. split; [reflexivity |].
  refine (proj1 (stylist_is_stripped_token
                   ("Cut with .Bob" ++ String (ascii_of_N 178) "!, today")
                   "cut " (".bob" ++ String (ascii_of_N 178) "!, today")
                   _ _) _); reflexivity.
Defined.

(** C9 fails as stated: the punctuation in front of the token is removed
    as well, so the hint for [with .bob!] is [bob] and not [.bob]. *)
Lemma leading_punctuation_is_stripped :
  exists request,
    conversational_to_search (Some "cut with .bob!") = Ok request /\
    PyStr.split "cut with .bob!" = ["cut"; "with"; ".bob!"] /\
    SearchRequest.stylist request = Some "bob" /\
    SearchRequest.stylist request <> Some ".bob".
Proof.
  eexists. split; [vm_compute; reflexivity |].
  split; [reflexivity |]. split; [reflexivity | discriminate].
Qed.

(* ------------------------------------------------------------------ *)
(** ** What the connectors return *)

(** X1: Every run of the Square connector reads the clock once, draws ninety
    random numbers and returns ten slots; the [i]-th is a Square listing
    with the internal id [sq_i], a price and a duration from the fixed
    lists, a start time inside the window of 48 hours that begins at the
    next full hour, and coordinates within 0.02 of the search centre. *)
Theorem square_slots_listed (W : World) (search : SearchRequest.t)
  (st : Calls) :
  exists slots,
    connector_square_haircuts W search st
    = (Ok slots, after_reading_and_draws 90 st) /\
    List.length slots = 10%nat /\
    forall i s,
      nth_error slots i = Some s ->
      listed square_listing
        (replace_to_hour (utcnow_at W (clock_calls st)) + timedelta_hours 1)
        search i s.
Proof.
  destruct (connector_square_run W search st) as (slots & E & H).
  exists slots. split; [exact E |].
  split; [exact (Forall2_length_seq _ _ _ _ H) |].
  intros i s Hi. exact (Forall2_seq_nth _ _ _ _ _ _ H Hi).
Qed.

(** X2: The same for the Vagaro connector: ten Vagaro listings with the
    internal ids [vg_i], a window of 72 hours that begins at the full hour
    after next, and coordinates within 0.03 of the search centre. *)
Theorem vagaro_slots_listed (W : World) (search : SearchRequest.t)
  (st : Calls) :
  exists slots,
    connector_vagaro_haircuts W search st
    = (Ok slots, after_reading_and_draws 90 st) /\
    List.length slots = 10%nat /\
    forall i s,
      nth_error slots i = Some s ->
      listed vagaro_listing
        (replace_to_hour (utcnow_at W (clock_calls st)) + timedelta_hours 2)
        search i s.
Proof.
  destruct (connector_vagaro_run W search st) as (slots & E & H).
  exists slots. split; [exact E |].
  split; [exact (Forall2_length_seq _ _ _ _ H) |].
  intros i s Hi. exact (Forall2_seq_nth _ _ _ _ _ _ H Hi).
Qed.

(** X3: No connector offers a slot in the past: every Square slot starts on a
    full hour, strictly after the connector's reading of the clock and at
    most 49 hours after it; every Vagaro slot likewise, at most 74 hours
    after the reading. *)
Theorem connector_slots_start_later (W : World) (search : SearchRequest.t)
  (st : Calls) :
  let now := utcnow_at W (clock_calls st) in
  (exists slots st',
      connector_square_haircuts W search st = (Ok slots, st') /\
      Forall (fun s =>
                now < AppointmentSlot.start_time s
                    <= now + timedelta_hours 49 /\
                AppointmentSlot.start_time s mod timedelta_hours 1 = 0)
             slots) /\
  (exists slots st',
      connector_vagaro_haircuts W search st = (Ok slots, st') /\
      Forall (fun s =>
                now < AppointmentSlot.start_time s
                    <= now + timedelta_hours 74 /\
                AppointmentSlot.start_time s mod timedelta_hours 1 = 0)
             slots).
Proof.
  intros now. split.
  - destruct (connector_square_run W search st) as (slots & E & H).
    exists slots. eexists. split; [exact E |].
    eapply Forall2_Forall_r; [| exact H].
    intros i s Hs. exact (listed_start square_listing now 1 search i s ltac:(lia) Hs).
  - destruct (connector_vagaro_run W search st) as (slots & E & H).
    exists slots. eexists. split; [exact E |].
    eapply Forall2_Forall_r; [| exact H].
    intros i s Hs. exact (listed_start vagaro_listing now 2 search i s ltac:(lia) Hs).
Qed.

(* ------------------------------------------------------------------ *)
(** ** More on the aggregation pipeline *)

(** Every result is the normalisation of a raw slot that the filter
    kept. *)
Lemma result_from_raw {search : SearchRequest.t} {pw raw ns limit n} :
  Forall2 built (filter (kept search pw) raw) ns ->
  In n (slice_to (sort_by_key sort_key ns) limit) ->
  exists s v,
    In s raw /\ kept search pw s = true /\ n = normalized_with s v.
Proof.
  intros Hns Hin. apply slice_to_In in Hin.
  apply (Permutation_in _ (Permutation_sym (sort_by_key_perm sort_key ns)))
    in Hin.
  destruct (Forall2_In_r _ _ _ _ Hns Hin) as (s & Hs & v & ->).
  apply filter_In in Hs as [Hraw Hkeep]. exists s, v. auto.
Qed.

Lemma filter_all {A} (f : A -> bool) (l : list A) :
  Forall (fun a => f a = true) l -> filter f l = l.
Proof.
  induction 1 as [| a l Ha _ IH]; cbn [filter]; [reflexivity |].
  now rewrite Ha, IH.
Qed.

Lemma sorted_length {A} (key : A -> Q * Z * datetime) (l : list A) :
  List.length (sort_by_key key l) = List.length l.
Proof. symmetry. apply Permutation_length, sort_by_key_perm. Qed.

(** X4: When the phrase of the request resolves to a naive instant, the
    search returns and no result starts before that instant. *)
Theorem search_results_not_before_when (W : World)
  (search : SearchRequest.t) (st st1 : Calls) (t : datetime) :
  parse_when_text W (SearchRequest.when search) st
  = (Ok (Some (Naive t)), st1) ->
  exists results st',
    search_haircuts_internal W search st = (Ok results, st') /\
    Forall (fun n => t <= NormalizedSlot.start_time n) results.
Proof.
  intros Hparse.
  destruct (search_outcome W
              (fun pw results =>
                 pw = Some (Naive t) ->
                 Forall (fun n => t <= NormalizedSlot.start_time n) results)
              search st) as (pw & st1' & E1 & Hreturns & _).
  { intros pw base1 base2 sq vg ns _ _ Hns ->.
    apply Forall_forall. intros n Hn.
    destruct (result_from_raw Hns Hn) as (s & v & _ & Hkeep & ->).
    exact (kept_when _ _ _ Hkeep). }
  rewrite Hparse in E1. injection E1 as <- _.
  destruct (Hreturns eq_refl) as (results & st' & Hrun & Hall).
  exists results, st'. split; [exact Hrun | exact (Hall eq_refl)].
Qed.

Lemma search_results_not_before_when_witness :
  exists results st',
    search_haircuts_internal Example.world (Example.request_when "tomorrow" 25)
      Example.start = (Ok results, st') /\
    Forall (fun n => 1735808400000000 <= NormalizedSlot.start_time n) results.
Proof.
  apply (search_results_not_before_when Example.world
           (Example.request_when "tomorrow" 25) Example.start
           {| clock_calls := 1; random_calls := 0 |} 1735808400000000).
  vm_compute. reflexivity.
Defined.

Lemma NoDup_map_filter {A B} (g : A -> B) (f : A -> bool) (l : list A) :
  NoDup (map g l) -> NoDup (map g (filter f l)).
Proof.
  induction l as [| a l IH]; cbn [map filter]; intros H; [constructor |].
  inversion H as [| x xs Hnotin Hrest]; subst.
  destruct (f a); cbn [map]; [| exact (IH Hrest)].
  constructor; [| exact (IH Hrest)].
  intros Hin. apply Hnotin. apply in_map_iff in Hin as (x & <- & Hx).
  apply in_map. apply filter_In in Hx. tauto.
Qed.

Lemma NoDup_firstn {A} (n : nat) (l : list A) : NoDup l -> NoDup (firstn n l).
Proof.
  intros H. rewrite <- (firstn_skipn n l) in H.
  exact (NoDup_app_remove_r _ _ H).
Qed.

Lemma slice_to_firstn {A} (l : list A) stop :
  exists n, slice_to l stop = firstn n l.
Proof. unfold slice_to. destruct (stop <? 0); eexists; reflexivity. Qed.

Lemma Forall2_map_eq {A B C} (P : A -> B -> Prop) (g : B -> C) (h : A -> C)
  l bs :
  (forall a b, P a b -> g b = h a) -> Forall2 P l bs -> map g bs = map h l.
Proof.
  intros Hgh H. induction H as [| a b l bs Hab _ IH]; cbn [map];
    [reflexivity |].
  now rewrite (Hgh a b Hab), IH.
Qed.

Lemma listed_composed_id L base search i s :
  listed L base search i s ->
  composed_id s
  = l_provider L ++ ":" ++ l_id_prefix L ++ PyStr.of_int (Z.of_nat i).
Proof.
  intros (Hp & Hid & _). unfold composed_id. now rewrite Hp, Hid.
Qed.

Lemma connector_ids_NoDup : NoDup connector_ids.
Proof.
  replace connector_ids with (nodup string_dec connector_ids)
    by (vm_compute; reflexivity).
  apply NoDup_nodup.
Qed.

(** The ids of the raw slots of one search are the twenty connector ids. *)
Lemma raw_composed_ids base1 base2 search sq vg :
  Forall2 (listed square_listing base1 search) (seq 0 10) sq ->
  Forall2 (listed vagaro_listing base2 search) (seq 0 10) vg ->
  map composed_id (sq ++ vg) = connector_ids.
Proof.
  intros Hsq Hvg. rewrite map_app. unfold connector_ids. f_equal.
  - eapply Forall2_map_eq; [| exact Hsq].
    intros i s Hs. exact (listed_composed_id _ _ _ _ _ Hs).
  - eapply Forall2_map_eq; [| exact Hvg].
    intros i s Hs. exact (listed_composed_id _ _ _ _ _ Hs).
Qed.

(** X5: Whatever the request, a list that a search returns holds at most
    twenty results, their ids are pairwise distinct, and each id is one of
    the twenty connector ids [square:sq_0] to [square:sq_9] and
    [vagaro:vg_0] to [vagaro:vg_9].  The search returns whenever the time
    phrase does not resolve to an aware datetime. *)
Theorem search_result_ids_distinct (W : World) (search : SearchRequest.t)
  (st : Calls) :
  exists pw st1,
    parse_when_text W (SearchRequest.when search) st = (Ok pw, st1) /\
    (aware_bound pw = false ->
     exists results st',
       search_haircuts_internal W search st = (Ok results, st') /\
       (List.length results <= 20)%nat /\
       NoDup (map NormalizedSlot.id results) /\
       incl (map NormalizedSlot.id results) connector_ids) /\
    (forall results st',
        search_haircuts_internal W search st = (Ok results, st') ->
        (List.length results <= 20)%nat /\
        NoDup (map NormalizedSlot.id results) /\
        incl (map NormalizedSlot.id results) connector_ids).
Proof.
  destruct (search_outcome W
              (fun _ results =>
                 (List.length results <= 20)%nat /\
                 NoDup (map NormalizedSlot.id results) /\
                 incl (map NormalizedSlot.id results) connector_ids)
              search st) as (pw & st1 & E1 & Hreturns & Hall & _).
  { intros pw base1 base2 sq vg ns Hsq Hvg Hns.
    pose proof (raw_composed_ids _ _ _ _ _ Hsq Hvg) as Hraw.
    assert (Hids : map NormalizedSlot.id ns
                   = map composed_id (filter (kept search pw) (sq ++ vg))).
    { eapply Forall2_map_eq; [| exact Hns]. intros s n [v ->]. reflexivity. }
    assert (Hnodup : NoDup (map NormalizedSlot.id (sort_by_key sort_key ns))).
    { eapply Permutation_NoDup;
        [apply Permutation_map, sort_by_key_perm |].
      rewrite Hids. apply NoDup_map_filter. rewrite Hraw.
      exact connector_ids_NoDup. }
    split; [exact (ranked_length _ Hsq Hvg Hns) |].
    destruct (slice_to_firstn (sort_by_key sort_key ns)
                (SearchRequest.limit search)) as [k ->].
    split.
    - rewrite <- firstn_map. apply NoDup_firstn, Hnodup.
    - intros x Hx. apply in_map_iff in Hx as (n & <- & Hn).
      apply firstn_In in Hn.
      apply (Permutation_in _
               (Permutation_sym (sort_by_key_perm sort_key ns))) in Hn.
      rewrite <- Hraw.
      assert (Hin : In (NormalizedSlot.id n) (map NormalizedSlot.id ns))
        by (apply in_map; exact Hn).
      rewrite Hids in Hin. apply in_map_iff in Hin as (s & <- & Hs).
      apply in_map. apply filter_In in Hs. tauto. }
  exists pw, st1. auto.
Qed.

Lemma all_kept_count {P : AppointmentSlot.t -> NormalizedSlot.t -> Prop}
  {L1 L2 base1 base2 search pw sq vg ns} limit :
  Forall2 (listed L1 base1 search) (seq 0 10) sq ->
  Forall2 (listed L2 base2 search) (seq 0 10) vg ->
  Forall (fun s => kept search pw s = true) (sq ++ vg) ->
  Forall2 P (filter (kept search pw) (sq ++ vg)) ns ->
  0 <= limit ->
  Z.of_nat (List.length (slice_to (sort_by_key sort_key ns) limit))
  = Z.min limit 20.
Proof.
  intros Hsq Hvg Hkeep Hns Hlimit.
  rewrite (filter_all _ _ Hkeep) in Hns. apply Forall2_length in Hns.
  rewrite length_app in Hns.
  rewrite (Forall2_length_seq _ _ _ _ Hsq) in Hns.
  rewrite (Forall2_length_seq _ _ _ _ Hvg) in Hns.
  rewrite slice_to_length, sorted_length, <- Hns.
  destruct (Z.ltb_spec limit 0); [lia | reflexivity].
Qed.

(** X6: Without a budget and without a time phrase nothing is filtered: for a
    limit that is not negative the search returns [min(limit, 20)] results. *)
Theorem search_unfiltered_count (W : World) (search : SearchRequest.t)
  (st : Calls) :
  SearchRequest.budget_max search = None ->
  SearchRequest.when search = None \/ SearchRequest.when search = Some "" ->
  0 <= SearchRequest.limit search ->
  exists results st',
    search_haircuts_internal W search st = (Ok results, st') /\
    Z.of_nat (List.length results) = Z.min (SearchRequest.limit search) 20.
Proof.
  intros Hbudget Hwhen Hlimit.
  destruct (search_run_result W search st)
    as (pw & st1 & sq & vg & E1 & Hsq & Hvg & Hok & _).
  assert (Hpw : pw = None).
  { destruct Hwhen as [H | H]; rewrite H in E1; injection E1 as <- _;
      reflexivity. }
  subst pw.
  destruct (Hok _ (filter_slots_returns search None (sq ++ vg) eq_refl))
    as (ns & st' & Hns & Erun).
  eexists. exists st'. split; [exact Erun |].
  refine (all_kept_count _ Hsq Hvg _ Hns Hlimit).
  apply Forall_forall. intros s _. exact (kept_unfiltered _ _ Hbudget).
Qed.

Lemma search_unfiltered_count_witness :
  exists results st',
    search_haircuts_internal Example.world (Example.request 3) Example.start
    = (Ok results, st') /\
    Z.of_nat (List.length results) = 3.
Proof.
  apply (search_unfiltered_count Example.world (Example.request 3)
           Example.start).
  - reflexivity.
  - left. reflexivity.
  - cbn. lia.
Defined.

Lemma parse_when_text_now (W : World) (text : string) (st : Calls) :
  text <> "" ->
  mem_str (PyStr.strip_ws (PyStr.lower text)) ["now"; "asap"; "today"] = true ->
  parse_when_text W (Some text) st
  = (Ok (Some (Naive (utcnow_at W (clock_calls st)))),
     after_clock_reads 1 st).
Proof.
  intros Hne Hmem. destruct text as [| c text]; [congruence |].
  cbv beta iota zeta delta [parse_when_text]. rewrite Hmem.
  unfold try_except, bind, utcnow, ret, after_clock_reads.
  now rewrite Nat.add_1_r.
Qed.

(** X7: On a clock that does not run backwards the phrases [now], [asap] and
    [today] filter nothing: every connector slot starts after the instant
    they resolve to, so without a budget the search returns
    [min(limit, 20)] results. *)
Theorem today_keeps_every_slot (W : World) (search : SearchRequest.t)
  (st : Calls) (text : string) :
  SearchRequest.budget_max search = None ->
  SearchRequest.when search = Some text ->
  text <> "" ->
  mem_str (PyStr.strip_ws (PyStr.lower text)) ["now"; "asap"; "today"] = true ->
  utcnow_at W (clock_calls st) <= utcnow_at W (S (clock_calls st)) ->
  utcnow_at W (clock_calls st) <= utcnow_at W (S (S (clock_calls st))) ->
  0 <= SearchRequest.limit search ->
  exists results st',
    search_haircuts_internal W search st = (Ok results, st') /\
    Z.of_nat (List.length results) = Z.min (SearchRequest.limit search) 20.
Proof.
  intros Hbudget Hwhen Hne Hmem Hclock1 Hclock2 Hlimit.
  destruct (search_run_result W search st)
    as (pw & st1 & sq & vg & E1 & Hsq & Hvg & Hok & _).
  rewrite Hwhen, (parse_when_text_now W text st Hne Hmem) in E1.
  injection E1 as <- <-.
  cbn [after_clock_reads clock_calls] in Hsq, Hvg.
  rewrite Nat.add_1_r in Hsq, Hvg.
  destruct (Hok _ (filter_slots_returns search
                     (Some (Naive (utcnow_at W (clock_calls st))))
                     (sq ++ vg) eq_refl))
    as (ns & st' & Hns & Erun).
  eexists. exists st'. split; [exact Erun |].
  refine (all_kept_count _ Hsq Hvg _ Hns Hlimit).
  apply Forall_app. split.
  - eapply Forall2_Forall_r; [| exact Hsq]. intros i s Hs.
    apply (kept_later _ _ _ Hbudget).
    destruct (listed_start _ _ 1 _ _ _ ltac:(lia) Hs) as [[Hlater _] _]. lia.
  - eapply Forall2_Forall_r; [| exact Hvg]. intros i s Hs.
    apply (kept_later _ _ _ Hbudget).
    destruct (listed_start _ _ 2 _ _ _ ltac:(lia) Hs) as [[Hlater _] _]. lia.
Qed.

Lemma today_keeps_every_slot_witness :
  exists results st',
    search_haircuts_internal Example.world (Example.request_when " Today" 25)
      Example.start = (Ok results, st') /\
    Z.of_nat (List.length results) = 20.
Proof.
  apply (today_keeps_every_slot Example.world
           (Example.request_when " Today" 25) Example.start " Today").
  - reflexivity.
  - reflexivity.
  - discriminate.
  - reflexivity.
  - vm_compute. discriminate.
  - vm_compute. discriminate.
  - cbn. lia.
Defined.

(* ------------------------------------------------------------------ *)
(** ** More on the scoring function *)

Lemma py_max_cases (a b : Q) :
  (Qltb a b = true /\ py_max a b = b /\ (a < b)%Q) \/
  (Qltb a b = false /\ py_max a b = a /\ (b <= a)%Q).
Proof.
  unfold py_max. destruct (Qltb a b) eqn:E.
  - left. auto using Qltb_true.
  - right. auto using Qltb_false.
Qed.

Lemma round_half_even_ge (n : Z) (q : Q) :
  (inject_Z n <= q)%Q -> n <= round_half_even q.
Proof.
  intros H. apply Qfloor_resp_le in H. rewrite Qfloor_Z in H.
  unfold round_half_even.
  destruct (q - inject_Z (Qfloor q) ?= 1 # 2)%Q;
    [destruct (Z.even (Qfloor q)) |..]; lia.
Qed.

Lemma round_half_even_le (n : Z) (q : Q) :
  (q <= inject_Z n)%Q -> round_half_even q <= n.
Proof.
  intros H. pose proof (Qfloor_le q) as Hf.
  assert (Hfn : Qfloor q <= n).
  { rewrite Zle_Qle. lra. }
  unfold round_half_even.
  destruct (Z.eq_dec (Qfloor q) n) as [E | E].
  - assert (Hlt : (q - inject_Z (Qfloor q) < 1 # 2)%Q) by (rewrite E; lra).
    destruct (q - inject_Z (Qfloor q) ?= 1 # 2)%Q eqn:Ec; [| exact Hfn |].
    + apply Qeq_alt in Ec. lra.
    + apply Qgt_alt in Ec. lra.
  - destruct (q - inject_Z (Qfloor q) ?= 1 # 2)%Q;
      [destruct (Z.even (Qfloor q)) |..]; lia.
Qed.

Lemma round4_range (lo hi : Z) (q : Q) :
  (inject_Z lo <= q * 10000)%Q -> (q * 10000 <= inject_Z hi)%Q ->
  (lo # 10000 <= round4 q)%Q /\ (round4 q <= hi # 10000)%Q.
Proof.
  intros Hlo Hhi. unfold round4. rewrite Qred_correct.
  pose proof (round_half_even_ge _ _ Hlo) as H1.
  pose proof (round_half_even_le _ _ Hhi) as H2.
  unfold Qle. cbn [Qnum Qden]. lia.
Qed.

Lemma round_half_even_compat (q1 q2 : Q) :
  (q1 == q2)%Q -> round_half_even q1 = round_half_even q2.
Proof.
  intros E. unfold round_half_even. rewrite (Qfloor_comp _ _ E).
  assert (Ec : (q1 - inject_Z (Qfloor q2) ?= 1 # 2)%Q
               = (q2 - inject_Z (Qfloor q2) ?= 1 # 2)%Q).
  { apply Qcompare_comp; [rewrite E |]; reflexivity. }
  now rewrite Ec.
Qed.

Lemma round4_compat (q1 q2 : Q) : (q1 == q2)%Q -> round4 q1 = round4 q2.
Proof.
  intros E. unfold round4.
  rewrite (round_half_even_compat (q1 * 10000) (q2 * 10000));
    [reflexivity | now rewrite E].
Qed.

Lemma price_score_cases (slot : AppointmentSlot.t) :
  let v := (1 - inject_Z (AppointmentSlot.price_cents slot) / 100 / 100)%Q in
  (price_score slot = v /\ (0 < v)%Q) \/
  (price_score slot = 0%Q /\ (v <= 0)%Q).
Proof.
  intros v. unfold price_score. fold v.
  destruct (py_max_cases 0 v) as [(_ & -> & H) | (_ & -> & H)]; auto.
Qed.

Lemma price_score_unit (slot : AppointmentSlot.t) :
  0 <= AppointmentSlot.price_cents slot ->
  (0 <= price_score slot)%Q /\ (price_score slot <= 1)%Q.
Proof.
  intros Hp. rewrite Zle_Qle in Hp. change (inject_Z 0) with 0%Q in Hp.
  pose proof (price_score_cases slot) as H. cbv zeta in H.
  unfold Qdiv in H. change (/ 100)%Q with (1 # 100)%Q in H.
  destruct H as [[-> H] | [-> H]]; split; lra.
Qed.

(** X9: The price term lies between 0 and 1 for a price that is not negative,
    is 0 from 100 dollars on, and never rises with the price. *)
Theorem price_score_falls_with_price (s1 s2 : AppointmentSlot.t) :
  (0 <= price_score s1)%Q /\
  (0 <= AppointmentSlot.price_cents s1 -> (price_score s1 <= 1)%Q) /\
  (10000 <= AppointmentSlot.price_cents s1 -> price_score s1 = 0%Q) /\
  (AppointmentSlot.price_cents s1 <= AppointmentSlot.price_cents s2 ->
   (price_score s2 <= price_score s1)%Q).
Proof.
  pose proof (price_score_cases s1) as H1.
  pose proof (price_score_cases s2) as H2. cbv zeta in H1, H2.
  unfold Qdiv in H1, H2. change (/ 100)%Q with (1 # 100)%Q in H1, H2.
  repeat split.
  - destruct H1 as [[-> H] | [-> H]]; lra.
  - intros Hp. rewrite Zle_Qle in Hp. change (inject_Z 0) with 0%Q in Hp.
    destruct H1 as [[-> H] | [-> H]]; lra.
  - intros Hp. rewrite Zle_Qle in Hp.
    change (inject_Z 10000) with 10000%Q in Hp.
    destruct H1 as [[_ H] | [-> _]]; [lra | reflexivity].
  - intros Hp. rewrite Zle_Qle in Hp.
    destruct H1 as [[-> H1] | [-> H1]], H2 as [[-> H2] | [-> H2]]; lra.
Qed.

Lemma early_bonus_range slot now :
  (0 <= early_bonus slot now)%Q /\ (early_bonus slot now <= 2 # 10)%Q.
Proof.
  unfold early_bonus.
  destruct (AppointmentSlot.start_time slot <? now + timedelta_hours 24);
    split; discriminate.
Qed.

Lemma service_match_range (W : World) slot search :
  (forall a b, 0 <= partial_ratio W a b <= 100)%Q ->
  (0 <= service_match W slot search)%Q /\ (service_match W slot search <= 1)%Q.
Proof.
  intros Hratio. unfold service_match.
  destruct (str_truthy (SearchRequest.service search));
    [| split; discriminate].
  match goal with
  | |- context [partial_ratio W ?a ?b] => destruct (Hratio a b) as [H0 H1]
  end.
  unfold Qdiv. change (/ 100)%Q with (1 # 100)%Q. split; lra.
Qed.

Lemma stylist_match_range slot search :
  (0 <= stylist_match slot search)%Q /\ (stylist_match slot search <= 1)%Q.
Proof.
  unfold stylist_match.
  destruct (SearchRequest.stylist search) as [wanted |];
    [| split; discriminate].
  destruct (AppointmentSlot.stylist_name slot) as [name |];
    [| split; discriminate].
  destruct (str_truthy (Some wanted) && str_truthy (Some name)
            && PyStr.contains (PyStr.lower wanted) (PyStr.lower name));
    split; discriminate.
Qed.

Lemma proximity_range slot search :
  (0 <= proximity slot search)%Q /\ (proximity slot search <= 1)%Q.
Proof.
  unfold proximity.
  destruct (SearchRequest.lat search) as [lat |]; [| split; discriminate].
  destruct (SearchRequest.lng search) as [lng |]; [| split; discriminate].
  destruct (float_truthy (AppointmentSlot.latitude slot)
            && float_truthy (AppointmentSlot.longitude slot));
    [| split; discriminate].
  destruct (AppointmentSlot.latitude slot) as [slat |];
    [| split; discriminate].
  destruct (AppointmentSlot.longitude slot) as [slng |];
    [| split; discriminate].
  pose proof (Qabs_nonneg (slat - lat)) as Ha.
  pose proof (Qabs_nonneg (slng - lng)) as Hb.
  unfold Qdiv. change (/ (1 # 10))%Q with 10%Q.
  match goal with
  | |- context [py_max 0 ?v] =>
      destruct (py_max_cases 0 v) as [(_ & -> & H) | (_ & -> & H)]
  end; split; lra.
Qed.

(** X10: With a fuzzy matcher that answers between 0 and 100 and a price that
    is not negative, the score lies between 0 and 2.5. *)
Theorem score_range (W : World) (slot : AppointmentSlot.t)
  (search : SearchRequest.t) (st : Calls) :
  (forall a b, 0 <= partial_ratio W a b <= 100)%Q ->
  0 <= AppointmentSlot.price_cents slot ->
  exists v,
    compute_score W slot search st = (Ok v, after_clock_reads 1 st) /\
    (0 <= v)%Q /\ (v <= 25 # 10)%Q.
Proof.
  intros Hratio Hprice. rewrite compute_score_run. eexists.
  split; [reflexivity |].
  destruct (price_score_unit slot Hprice) as [Hp0 Hp1].
  destruct (early_bonus_range slot (utcnow_at W (clock_calls st)))
    as [He0 He1].
  destruct (service_match_range W slot search Hratio) as [Hs0 Hs1].
  destruct (stylist_match_range slot search) as [Ht0 Ht1].
  destruct (proximity_range slot search) as [Hx0 Hx1].
  match goal with
  | |- (0 <= round4 ?q)%Q /\ _ =>
      destruct (round4_range 0 25000 q) as [Hlo Hhi]
  end.
  - change (inject_Z 0) with 0%Q. lra.
  - change (inject_Z 25000) with 25000%Q. lra.
  - split.
    + apply (Qle_trans _ (0 # 10000)); [discriminate | exact Hlo].
    + apply (Qle_trans _ (25000 # 10000)); [exact Hhi | discriminate].
Qed.

Lemma score_range_witness :
  exists v,
    compute_score Example.world Example.origin_slot (Example.request 25)
      Example.start = (Ok v, after_clock_reads 1 Example.start) /\
    (0 <= v)%Q /\ (v <= 25 # 10)%Q.
Proof.
  apply (score_range Example.world Example.origin_slot (Example.request 25)
           Example.start).
  - intros a b. cbn. destruct (String.eqb a b); split; discriminate.
  - cbn. lia.
Defined.

(* ------------------------------------------------------------------ *)
(** ** More on the query interpreter *)

(** What a returned request holds, read off the code of
    [conversational_to_search] for a query that is not empty. *)
Lemma conversational_to_search_fields (query : string) (r : SearchRequest.t) :
  query <> "" ->
  conversational_to_search (Some query) = Ok r ->
  let q := PyStr.lower query in
  SearchRequest.query r = Some query /\
  scan_budget None
    (PyStr.split (PyStr.replace_char "," "" (PyStr.replace_char "$" "" q)))
  = Ok (SearchRequest.budget_max r) /\
  SearchRequest.service r
  = (if PyStr.contains "fade" q then Some "fade"
     else if PyStr.contains "women" q then Some "Women's Cut"
     else if PyStr.contains "men" q then Some "Men's Cut"
     else None) /\
  SearchRequest.when r
  = (if PyStr.contains "today" q || PyStr.contains "asap" q
     then Some "today"
     else if PyStr.contains "tomorrow" q then Some "tomorrow"
     else None) /\
  (PyStr.contains "with " q = false -> SearchRequest.stylist r = None) /\
  SearchRequest.distance_miles_max r = None /\
  SearchRequest.lat r = None /\ SearchRequest.lng r = None /\
  SearchRequest.limit r = 25.
Proof.
  intros Hne H. destruct query as [| c query]; [congruence |].
  cbv beta iota zeta delta [conversational_to_search] in H.
  cbv zeta.
  destruct (scan_budget None _) as [budget | e] eqn:Ebudget;
    [| discriminate H].
  cbv beta iota delta [rbind] in H.
  destruct (PyStr.contains "with " (PyStr.lower (String c query))) eqn:Ewith.
  - destruct (index (PyStr.split1 "with " (PyStr.lower (String c query))) 1)
      as [rest | e]; [| discriminate H].
    destruct (index (PyStr.split rest) 0) as [token | e]; [| discriminate H].
    injection H as <-. repeat split. discriminate.
  - injection H as <-. repeat split.
Qed.

Lemma decimal_value_nonneg (s : string) :
  forall acc,
    PyStr.forallb_str PyStr.isdecimal_char s = true ->
    0 <= acc -> 0 <= PyStr.decimal_value acc s.
Proof.
  induction s as [| c s IH]; intros acc Hs Hacc; [exact Hacc |].
  cbn [PyStr.forallb_str] in Hs. apply andb_true_iff in Hs as [Hc Hs].
  cbn [PyStr.decimal_value]. apply IH; [exact Hs |].
  unfold PyStr.isdecimal_char in Hc. apply andb_true_iff in Hc as [Hc _].
  apply N.leb_le in Hc. lia.
Qed.

Lemma int_of_str_nonneg (s : string) (v : Z) : int_of_str s = Ok v -> 0 <= v.
Proof.
  unfold int_of_str. destruct s as [| c s]; [discriminate |].
  destruct (PyStr.forallb_str PyStr.isdecimal_char (String c s)) eqn:Hs;
    [| discriminate].
  destruct (String.length (String c s) <=? int_max_str_digits)%nat;
    [| discriminate].
  cbn [andb]. intros H. injection H as <-.
  exact (decimal_value_nonneg (String c s) 0 Hs ltac:(lia)).
Qed.

Lemma scan_budget_small (tokens : list string) :
  forall budget result,
    small_budget budget ->
    scan_budget budget tokens = Ok result -> small_budget result.
Proof.
  induction tokens as [| token tokens IH]; intros budget result Hb H;
    cbn [scan_budget] in H.
  - injection H as <-. exact Hb.
  - destruct (PyStr.isdigit token); [| exact (IH _ _ Hb H)].
    destruct (int_of_str token) as [value | e] eqn:Ev; [| discriminate H].
    cbn [rbind] in H. refine (IH _ _ _ H).
    destruct (Z.ltb_spec value 200); [| exact Hb].
    exists value. split; [reflexivity |].
    pose proof (int_of_str_nonneg _ _ Ev). lia.
Qed.

Lemma conversational_to_search_empty (query : option string) r :
  query = None \/ query = Some "" ->
  conversational_to_search query = Ok r -> r = SearchRequest.default.
Proof. intros [-> | ->] H; injection H as <-; reflexivity. Qed.

Lemma query_cases (query : option string) :
  (query = None \/ query = Some "") \/
  exists text, query = Some text /\ text <> "".
Proof.
  destruct query as [[| c s] |]; auto.
  right. exists (String c s). split; [reflexivity | discriminate].
Qed.

(** X13: A budget read from a query is a whole number of dollars between 0 and
    199: a number of 200 or more is never taken for a budget. *)
Theorem conversational_budget_is_small (query : option string)
  (r : SearchRequest.t) (b : Q) :
  conversational_to_search query = Ok r ->
  SearchRequest.budget_max r = Some b ->
  exists n, b = inject_Z n /\ 0 <= n < 200.
Proof.
  intros H Hb.
  destruct (query_cases query) as [Hq | (text & -> & Hne)].
  - rewrite (conversational_to_search_empty _ _ Hq H) in Hb. discriminate Hb.
  - destruct (conversational_to_search_fields text r Hne H)
      as (_ & Hscan & _).
    apply scan_budget_small in Hscan; [| exact I].
    rewrite Hb in Hscan. exact Hscan.
Qed.

Lemma conversational_budget_is_small_witness :
  exists r n,
    conversational_to_search (Some "Fade under $45, tomorrow") = Ok r /\
    SearchRequest.budget_max r = Some (inject_Z n) /\ 0 <= n < 200.
Proof.
  eexists.
  destruct (conversational_budget_is_small
              (Some "Fade under $45, tomorrow") _ 45%Q eq_refl eq_refl)
    as (n & Hn & Hrange).
  exists n. split; [reflexivity |]. split; [| exact Hrange].
  cbn [SearchRequest.budget_max]. now rewrite <- Hn.
Defined.

(** X14: A request read from a query never carries coordinates, and its limit
    is always 25: whatever the slot, its proximity term is 0. *)
Theorem conversational_request_has_no_coordinates (query : option string)
  (r : SearchRequest.t) :
  conversational_to_search query = Ok r ->
  SearchRequest.lat r = None /\ SearchRequest.lng r = None /\
  SearchRequest.limit r = 25 /\
  forall slot, proximity slot r = 0%Q.
Proof.
  intros H.
  assert (Hr : SearchRequest.lat r = None /\ SearchRequest.lng r = None /\
               SearchRequest.limit r = 25).
  { destruct (query_cases query) as [Hq | (text & -> & Hne)].
    - rewrite (conversational_to_search_empty _ _ Hq H). repeat split.
    - destruct (conversational_to_search_fields text r Hne H)
        as (_ & _ & _ & _ & _ & _ & Hlat & Hlng & Hlimit). auto. }
  destruct Hr as (Hlat & Hlng & Hlimit). repeat split; try assumption.
  intros slot. apply proximity_absent. auto.
Qed.

Lemma conversational_request_has_no_coordinates_witness :
  exists r,
    conversational_to_search (Some "Fade under $45, tomorrow") = Ok r /\
    SearchRequest.limit r = 25 /\
    proximity Example.origin_slot r = 0%Q.
Proof.
  eexists. split; [reflexivity |].
  destruct (conversational_request_has_no_coordinates
              (Some "Fade under $45, tomorrow") _ eq_refl)
    as (_ & _ & Hlimit & Hprox).
  split; [exact Hlimit | exact (Hprox Example.origin_slot)].
Defined.

Lemma parse_when_text_tomorrow (W : World) (st : Calls) :
  parse_when_text W (Some "tomorrow") st
  = (Ok (Some (Naive (replace_hour 9 (utcnow_at W (clock_calls st))
                      + timedelta_days 1))),
     after_clock_reads 1 st).
Proof.
  unfold parse_when_text, try_except, bind, utcnow, ret, after_clock_reads.
  cbn [mem_str existsb]. now rewrite Nat.add_1_r.
Qed.

Lemma conversational_when_cases (query : option string)
  (r : SearchRequest.t) (W : World) (st : Calls) :
  conversational_to_search query = Ok r ->
  let now := utcnow_at W (clock_calls st) in
  (SearchRequest.when r = None /\
   parse_when_text W (SearchRequest.when r) st = (Ok None, st)) \/
  (SearchRequest.when r = Some "today" /\
   parse_when_text W (SearchRequest.when r) st
   = (Ok (Some (Naive now)), after_clock_reads 1 st)) \/
  (SearchRequest.when r = Some "tomorrow" /\
   parse_when_text W (SearchRequest.when r) st
   = (Ok (Some (Naive (replace_hour 9 now + timedelta_days 1))),
      after_clock_reads 1 st)).
Proof.
  intros H now.
  destruct (query_cases query) as [Hq | (text & -> & Hne)].
  - rewrite (conversational_to_search_empty _ _ Hq H). left.
    split; reflexivity.
  - destruct (conversational_to_search_fields text r Hne H)
      as (_ & _ & _ & Hwhen & _). cbv zeta in Hwhen. rewrite Hwhen.
    destruct (PyStr.contains "today" (PyStr.lower text)
              || PyStr.contains "asap" (PyStr.lower text)).
    + right. left. split; [reflexivity |].
      apply parse_when_text_now; [discriminate | reflexivity].
    + destruct (PyStr.contains "tomorrow" (PyStr.lower text)).
      * right. right. split; [reflexivity | apply parse_when_text_tomorrow].
      * left. split; reflexivity.
Qed.

(** The bound of a request read from a query is never aware. *)
Lemma conversational_when_naive (query : option string)
  (r : SearchRequest.t) (W : World) (st st1 : Calls) pw :
  conversational_to_search query = Ok r ->
  parse_when_text W (SearchRequest.when r) st = (Ok pw, st1) ->
  aware_bound pw = false.
Proof.
  intros H Hparse.
  destruct (conversational_when_cases query r W st H)
    as [[_ E] | [[_ E] | [_ E]]];
    rewrite E in Hparse; injection Hparse as <- _; reflexivity.
Qed.

(** X15: The time phrase of a request read from a query is absent, [today]
    or [tomorrow], so resolving it never reaches the fallback parser: the
    bound is none, the reading of the clock, or nine o'clock of the day
    after the reading, each a naive datetime. *)
Theorem conversational_when_resolves (query : option string)
  (r : SearchRequest.t) (W : World) (st : Calls) :
  conversational_to_search query = Ok r ->
  let now := utcnow_at W (clock_calls st) in
  (SearchRequest.when r = None /\
   parse_when_text W (SearchRequest.when r) st = (Ok None, st)) \/
  (SearchRequest.when r = Some "today" /\
   parse_when_text W (SearchRequest.when r) st
   = (Ok (Some (Naive now)), after_clock_reads 1 st)) \/
  (SearchRequest.when r = Some "tomorrow" /\
   parse_when_text W (SearchRequest.when r) st
   = (Ok (Some (Naive (replace_hour 9 now + timedelta_days 1))),
      after_clock_reads 1 st)).
Proof. exact (conversational_when_cases query r W st). Qed.

Lemma conversational_when_resolves_witness :
  exists r,
    conversational_to_search (Some "Fade under $45, tomorrow") = Ok r /\
    parse_when_text Example.world (SearchRequest.when r) Example.start
    = (Ok (Some (Naive 1735808400000000)), after_clock_reads 1 Example.start).
Proof.
  eexists. split; [reflexivity |].
  destruct (conversational_when_resolves
              (Some "Fade under $45, tomorrow") _ Example.world Example.start
              eq_refl)
    as [[Hw _] | [[Hw _] | [_ Hp]]]; [discriminate Hw | discriminate Hw |].
  exact Hp.
Defined.

(** X16: A query without [with ] in which [int] accepts every token that
    passes [isdigit] always yields a request, without a stylist hint; so
    does every query without [with ] that holds no superscript digit and
    no more characters than [int] accepts. *)
Theorem query_without_with_returns (query : string) :
  PyStr.contains "with " (PyStr.lower query) = false ->
  digits_convert query = true \/
  plain_digits query = true /\
  (String.length query <= int_max_str_digits)%nat ->
  exists r,
    conversational_to_search (Some query) = Ok r /\
    SearchRequest.stylist r = None.
Proof.
  intros Hwith Hdigits.
  assert (Hconvert : digits_convert query = true).
  { destruct Hdigits as [H | [Hplain Hlen]];
      [exact H | exact (plain_digits_convert query Hplain Hlen)]. }
  destruct query as [| c q]; [eexists; split; reflexivity |].
  pose proof (scan_budget_converts
                (PyStr.split
                   (PyStr.replace_char "," ""
                      (PyStr.replace_char "$" ""
                         (PyStr.lower (String c q))))) None) as Hscan.
  fold (digits_convert (String c q)) in Hscan. rewrite Hconvert in Hscan.
  destruct Hscan as [budget Hbudget].
  cbv beta iota zeta delta [conversational_to_search].
  rewrite Hbudget. cbv beta iota delta [rbind]. rewrite Hwith.
  eexists. split; reflexivity.
Qed.

Lemma query_without_with_returns_witness :
  exists r,
    conversational_to_search (Some "Women's cut asap, $60") = Ok r /\
    SearchRequest.stylist r = None.
Proof.
  apply (query_without_with_returns "Women's cut asap, $60").
  - reflexivity.
  - left. reflexivity.
Defined.

(** X17: [tomorrow], in any case and with any blanks around it, resolves to nine
    o'clock of the day after the reading of the clock: between 9 and 33
    hours after the reading. *)
Theorem tomorrow_is_next_morning (W : World) (text : string) (st : Calls) :
  PyStr.strip_ws (PyStr.lower text) = "tomorrow" ->
  let now := utcnow_at W (clock_calls st) in
  exists t,
    parse_when_text W (Some text) st
    = (Ok (Some (Naive t)), after_clock_reads 1 st) /\
    t mod timedelta_days 1 = timedelta_hours 9 /\
    now + timedelta_hours 9 < t <= now + timedelta_hours 33.
Proof.
  intros Hstrip now. destruct text as [| c text]; [discriminate Hstrip |].
  cbv beta iota zeta delta [parse_when_text]. rewrite Hstrip.
  unfold try_except, bind, utcnow, ret, after_clock_reads.
  cbn [mem_str existsb String.eqb Ascii.eqb Bool.eqb orb andb].
  fold now. rewrite Nat.add_1_r. eexists. split; [reflexivity |].
  unfold replace_hour, timedelta_days, timedelta_hours.
  rewrite !Z.mul_1_l.
  pose proof (Z.mod_pos_bound now 86400000000 eq_refl) as Hm.
  pose proof (Z.div_mod now 86400000000) as Hd.
  split; [| lia].
  replace (now - now mod 86400000000 + 9 * 3600000000 + 86400000000)
    with (9 * 3600000000 + (now / 86400000000 + 1) * 86400000000) by lia.
  rewrite Z.mod_add by discriminate. reflexivity.
Qed.

Lemma tomorrow_is_next_morning_witness :
  exists t,
    parse_when_text Example.world (Some " Tomorrow ") Example.start
    = (Ok (Some (Naive t)), after_clock_reads 1 Example.start) /\
    t mod timedelta_days 1 = timedelta_hours 9 /\
    Example.now + timedelta_hours 9 < t <= Example.now + timedelta_hours 33.
Proof.
  apply (tomorrow_is_next_morning Example.world " Tomorrow " Example.start).
  reflexivity.
Defined.

(* ------------------------------------------------------------------ *)
(** ** More on scoring: names and blank requests *)

Lemma str_truthy_lower (s : string) :
  str_truthy (Some (PyStr.lower s)) = str_truthy (Some s).
Proof. destruct s; reflexivity. Qed.

(** X11: Stylist matching ignores case: the stylist term depends on the wanted
    name and on the slot's stylist only through their lower-cased forms. *)
Theorem stylist_match_ignores_case (slot slot' : AppointmentSlot.t)
  (search search' : SearchRequest.t) :
  option_map PyStr.lower (SearchRequest.stylist search)
  = option_map PyStr.lower (SearchRequest.stylist search') ->
  option_map PyStr.lower (AppointmentSlot.stylist_name slot)
  = option_map PyStr.lower (AppointmentSlot.stylist_name slot') ->
  stylist_match slot search = stylist_match slot' search'.
Proof.
  unfold stylist_match. intros Hwanted Hname.
  destruct (SearchRequest.stylist search) as [w |],
           (SearchRequest.stylist search') as [w' |];
    try discriminate Hwanted; [| reflexivity].
  destruct (AppointmentSlot.stylist_name slot) as [n |],
           (AppointmentSlot.stylist_name slot') as [n' |];
    try discriminate Hname; [| reflexivity].
  cbn [option_map] in Hwanted, Hname.
  injection Hwanted as Hw. injection Hname as Hn.
  rewrite <- (str_truthy_lower w), <- (str_truthy_lower n), Hw, Hn.
  now rewrite !str_truthy_lower.
Qed.

Lemma stylist_match_ignores_case_witness :
  stylist_match Example.origin_slot (Example.request_stylist "ALEX")
  = stylist_match Example.origin_slot (Example.request_stylist "alex") /\
  stylist_match Example.origin_slot (Example.request_stylist "alex") = 1%Q.
Proof.
  split; [| reflexivity].
  apply (stylist_match_ignores_case Example.origin_slot Example.origin_slot
           (Example.request_stylist "ALEX") (Example.request_stylist "alex"));
    reflexivity.
Defined.

(** X12: For a request that names no service and no stylist and lacks a
    coordinate, the score is the rounded sum of the price term and the
    earliness term, whatever the fuzzy matcher answers. *)
Theorem score_without_preferences (W : World) (slot : AppointmentSlot.t)
  (search : SearchRequest.t) (st : Calls) :
  str_truthy (SearchRequest.service search) = false ->
  str_truthy (SearchRequest.stylist search) = false ->
  SearchRequest.lat search = None \/ SearchRequest.lng search = None ->
  compute_score W slot search st
  = (Ok (round4 (price_score slot
                 + early_bonus slot (utcnow_at W (clock_calls st)))),
     after_clock_reads 1 st).
Proof.
  intros Hservice Hstylist Hcoord. rewrite compute_score_run.
  assert (Hs : service_match W slot search = 0%Q)
    by (unfold service_match; now rewrite Hservice).
  assert (Ht : stylist_match slot search = 0%Q).
  { unfold stylist_match.
    destruct (SearchRequest.stylist search) as [w |]; [| reflexivity].
    destruct (AppointmentSlot.stylist_name slot); [| reflexivity].
    now rewrite Hstylist. }
  assert (Hp : proximity slot search = 0%Q)
    by (apply proximity_absent; tauto).
  rewrite Hs, Ht, Hp. f_equal. f_equal. apply round4_compat. ring.
Qed.

Lemma score_without_preferences_witness :
  compute_score Example.world Example.origin_slot (Example.request 25)
    Example.start
  = (Ok (9 # 10)%Q, after_clock_reads 1 Example.start).
Proof.
  rewrite (score_without_preferences Example.world Example.origin_slot
             (Example.request 25) Example.start eq_refl eq_refl
             (or_introl eq_refl)).
  vm_compute. reflexivity.
Defined.

(* ------------------------------------------------------------------ *)
(** ** Properties of the routes *)

(** A search returns a ranked list of at most twenty slots, or the bound
    of its time filter is aware and it raises [TypeError] after the two
    connectors have run. *)
Lemma search_ranked_or_raises (W : World) (search : SearchRequest.t)
  (st : Calls) :
  exists pw st1,
    parse_when_text W (SearchRequest.when search) st = (Ok pw, st1) /\
    ((exists results st',
         search_haircuts_internal W search st = (Ok results, st') /\
         StronglySorted rank_le results /\
         (List.length results <= 20)%nat) \/
     (aware_bound pw = true /\
      search_haircuts_internal W search st
      = (Raise TypeError,
         after_reading_and_draws 90 (after_reading_and_draws 90 st1)))).
Proof.
  destruct (search_outcome W
              (fun _ results =>
                 StronglySorted rank_le results /\
                 (List.length results <= 20)%nat)
              search st) as (pw & st1 & E1 & _ & Hall & Hraise).
  { intros pw base1 base2 sq vg ns Hsq Hvg Hns.
    split; [apply slice_to_sorted, sort_by_key_sorted |].
    exact (ranked_length _ Hsq Hvg Hns). }
  exists pw, st1. split; [exact E1 |].
  destruct (search_haircuts_internal W search st) as [[results | e] st']
    eqn:Erun.
  - left. exists results, st'. split; [reflexivity |].
    exact (Hall results st' eq_refl).
  - right. destruct (Hraise e st' eq_refl) as (-> & Haware & ->). auto.
Qed.

Lemma scan_budget_raises tokens :
  forall budget e, scan_budget budget tokens = Raise e -> e = ValueError.
Proof.
  induction tokens as [| token tokens IH]; intros budget e H;
    cbn [scan_budget] in H; [discriminate H |].
  destruct (PyStr.isdigit token); [| exact (IH _ _ H)].
  unfold int_of_str in H. destruct token as [| c token].
  - cbn [rbind] in H. now injection H as <-.
  - destruct (PyStr.forallb_str PyStr.isdecimal_char (String c token)
              && (String.length (String c token) <=? int_max_str_digits)%nat);
      cbn [rbind] in H; [exact (IH _ _ H) | now injection H as <-].
Qed.

Lemma conversational_to_search_raises_only (query : option string) e :
  conversational_to_search query = Raise e ->
  e = IndexError \/ e = ValueError.
Proof.
  destruct query as [[| c q] |]; [discriminate | | discriminate].
  cbv beta iota zeta delta [conversational_to_search].
  destruct (scan_budget None _) as [budget | e'] eqn:Ebudget.
  - cbv beta iota delta [rbind].
    destruct (PyStr.contains "with " (PyStr.lower (String c q)));
      [| discriminate].
    unfold index.
    destruct (nth_error (PyStr.split1 "with " (PyStr.lower (String c q))) 1)
      as [rest |]; [| intros H; injection H as <-; auto].
    destruct (nth_error (PyStr.split rest) 0) as [token |];
      [discriminate | intros H; injection H as <-; auto].
  - cbv beta iota delta [rbind]. intros H. injection H as <-.
    right. exact (scan_budget_raises _ _ _ Ebudget).
Qed.

(** X18: The search endpoint has three outcomes.  It answers with a ranked
    list of at most twenty slots; or the query is not empty and the
    endpoint fails before it reads the clock or draws a number, with the
    [IndexError] or [ValueError] of the query interpreter; or there is no
    query, the [when] parameter resolves to an aware datetime, and the
    endpoint fails with [TypeError] after both connectors have run. *)
Theorem api_search_haircuts_outcome (W : World) (q when : option string)
  (budget_max distance_miles_max : option Q) (service stylist : option string)
  (lat lng : option Q) (limit : Z) (st : Calls) :
  (exists results st',
      api_search_haircuts W q when budget_max distance_miles_max service
        stylist lat lng limit st = (Ok results, st') /\
      StronglySorted rank_le results /\ (List.length results <= 20)%nat) \/
  (exists e,
      api_search_haircuts W q when budget_max distance_miles_max service
        stylist lat lng limit st = (Raise e, st) /\
      str_truthy q = true /\
      conversational_to_search q = Raise e /\
      (e = IndexError \/ e = ValueError)) \/
  (exists t utcoffset st1,
      api_search_haircuts W q when budget_max distance_miles_max service
        stylist lat lng limit st
      = (Raise TypeError,
         after_reading_and_draws 90 (after_reading_and_draws 90 st1)) /\
      str_truthy q = false /\
      parse_when_text W when st = (Ok (Some (Aware t utcoffset)), st1)).
Proof.
  unfold api_search_haircuts.
  destruct (str_truthy q) eqn:Hq.
  - destruct (conversational_to_search q) as [search | e] eqn:Ec.
    + left.
      destruct (search_ranked_or_raises W search st)
        as (pw & st1 & E1 & [(results & st' & Erun & Hres) | [Haware _]]).
      * exists results, st'. split; [| exact Hres].
        unfold bind at 1, lift. unfold bind. rewrite Erun. reflexivity.
      * rewrite (conversational_when_naive q search W st st1 pw Ec E1)
          in Haware. discriminate Haware.
    + right. left. exists e. split; [reflexivity |].
      split; [reflexivity |]. split; [reflexivity |].
      exact (conversational_to_search_raises_only _ _ Ec).
  - match goal with
    | |- context [bind (ret ?r) _] =>
        destruct (search_ranked_or_raises W r st)
          as (pw & st1 & E1 &
              [(results & st' & Erun & Hres) | [Haware Erun]])
    end.
    + left. exists results, st'. split; [| exact Hres].
      unfold bind at 1, ret at 1. unfold bind. rewrite Erun. reflexivity.
    + right. right.
      destruct (aware_bound_true _ Haware) as (t & utcoffset & ->).
      exists t, utcoffset, st1. split; [| split; [reflexivity | exact E1]].
      unfold bind at 1, ret at 1. unfold bind. rewrite Erun. reflexivity.
Qed.

(** The third outcome at work: a [when] parameter that names a time zone
    makes the endpoint raise [TypeError] after three readings of the clock
    and 180 draws. *)
Lemma api_search_haircuts_zoned_when :
  api_search_haircuts Example.zoned_world None
    (Some "2025-08-01T17:00:00Z") None None None None None None 25
    Example.start
  = (Raise TypeError, {| clock_calls := 3; random_calls := 180 |}).
Proof. vm_compute. reflexivity. Qed.

(** X19: A booking is always confirmed: the answer repeats the provider and the
    internal id of the request, and its code is [CONF-] followed by a number
    from 10000 to 99999, for one draw of the random module. *)
Theorem api_book_confirms (W : World) (req : BookingRequest.t) (st : Calls) :
  exists n,
    api_book W req st
    = (Ok {| Confirmation.status := "confirmed";
             Confirmation.provider := BookingRequest.provider req;
             Confirmation.provider_internal_id :=
               BookingRequest.provider_internal_id req;
             Confirmation.confirmation_code := "CONF-" ++ PyStr.of_int n |},
       after_draws 1 st) /\
    10000 <= n <= 99999.
Proof.
  eexists. split; [reflexivity |]. apply randint_range. lia.
Qed.

(* ------------------------------------------------------------------ *)
(** ** The pipeline as a composition of its stages *)

(** X8: A search is the composition of its stages: the phrase is resolved,
    the Square connector runs, then the Vagaro connector, then the filter
    loop over their slots.  When the loop returns, the search returns and
    the ids of its results are among the ids of the slots the loop kept;
    once the limit reaches twenty they are exactly those ids, up to their
    order, so none is lost and none is added.  When the loop raises, which
    it does only with [TypeError], the search raises it. *)
Theorem search_returns_every_kept_slot (W : World)
  (search : SearchRequest.t) (st : Calls) :
  exists pw st1 sq st2 vg st3,
    parse_when_text W (SearchRequest.when search) st = (Ok pw, st1) /\
    connector_square_haircuts W search st1 = (Ok sq, st2) /\
    connector_vagaro_haircuts W search st2 = (Ok vg, st3) /\
    (aware_bound pw = false ->
     exists filtered, filter_slots search pw (sq ++ vg) = Ok filtered) /\
    (forall filtered,
        filter_slots search pw (sq ++ vg) = Ok filtered ->
        exists results st',
          search_haircuts_internal W search st = (Ok results, st') /\
          incl (map NormalizedSlot.id results) (map composed_id filtered) /\
          (20 <= SearchRequest.limit search ->
           Permutation (map NormalizedSlot.id results)
                       (map composed_id filtered))) /\
    (forall e,
        filter_slots search pw (sq ++ vg) = Raise e ->
        e = TypeError /\
        search_haircuts_internal W search st = (Raise TypeError, st3)).
Proof.
  destruct (search_run W search st)
    as (pw & st1 & sq & vg & E1 & E2 & E3 & Hsq & Hvg & Hok & Hraise).
  exists pw, st1, sq. eexists. exists vg. eexists.
  split; [exact E1 |]. split; [exact E2 |]. split; [exact E3 |].
  split; [| split].
  - intros Hpw. eexists. exact (filter_slots_returns _ _ _ Hpw).
  - intros filtered Ef.
    destruct (Hok filtered Ef) as (ns & st' & Hns & Hrun).
    specialize (Hrun (SearchRequest.limit search)).
    rewrite with_limit_same in Hrun.
    eexists. exists st'. split; [exact Hrun |].
    assert (Hids : map NormalizedSlot.id ns = map composed_id filtered).
    { eapply Forall2_map_eq; [| exact Hns]. intros s n [v ->]. reflexivity. }
    assert (Hperm :
              Permutation (map NormalizedSlot.id (sort_by_key sort_key ns))
                          (map NormalizedSlot.id ns))
      by (apply Permutation_map, Permutation_sym, sort_by_key_perm).
    rewrite <- Hids. split.
    + intros x Hx. apply (Permutation_in _ Hperm).
      apply in_map_iff in Hx as (n & <- & Hn). apply in_map.
      exact (slice_to_In _ _ _ Hn).
    + intros Hlimit.
      rewrite (filter_slots_kept _ _ _ _ Ef) in Hns.
      assert (Hlen : (List.length (sort_by_key sort_key ns) <= 20)%nat).
      { rewrite sorted_length. apply Forall2_length in Hns. rewrite <- Hns.
        pose proof (filter_length_le (kept search pw) (sq ++ vg)) as Hle.
        rewrite length_app, (Forall2_length_seq _ _ _ _ Hsq),
          (Forall2_length_seq _ _ _ _ Hvg) in Hle.
        lia. }
      unfold slice_to.
      destruct (Z.ltb_spec (SearchRequest.limit search) 0); [lia |].
      rewrite firstn_all2 by lia. exact Hperm.
  - intros e Ef. destruct (filter_slots_raises _ _ _ _ Ef) as [-> _].
    split; [reflexivity |].
    pose proof (Hraise TypeError Ef (SearchRequest.limit search)) as Hrun.
    rewrite with_limit_same in Hrun. exact Hrun.
Qed.
